(** * merge_goal_data.py: Hockey Reference + MoneyPuck merge

    A shallow embedding of [scripts/merge_goal_data.py] and the proofs of
    its specification.

    Modelling conventions.
    - A Python [str] is a [string]; every [ascii] stands for one character
      (a code point below 256), so [String.length] is Python's [len].
    - A Python [int] is a [Z].
    - [None] is [None] of an [option], or the constructor [VNone] of a JSON
      scalar.
    - A csv [DictReader] row is a [gmap string string]: [row.get(k)] is
      [row !! k], and a column that is missing from the file or from a short
      line reads as [None] either way.
    - The dict built by the loader is only ever looked up, so it is a
      [gmap string shot_detail]; the counters of [rebuild_stats] are listed
      and sorted in insertion order, so they are association lists.
    - An uncaught exception is the [Raise] result of the [result] monad.
    - What a function prints is returned next to its value, one string per
      call of [print]. *)

From Stdlib Require Import ZArith Ascii String List DecimalString Sorting.Sorted
  Sorting.Permutation.
From stdpp Require Import base option list gmap strings.

Local Open Scope string_scope.
Local Open Scope Z_scope.

(** ** Python built-ins on strings *)

Module Py.

(** The uncaught exceptions the script can end with. *)
Inductive exn : Type :=
  | ValueError
  | AttributeError
  | TypeError.

Inductive result (A : Type) : Type :=
  | Ok (a : A)
  | Raise (e : exn).
Arguments Ok {A} a.
Arguments Raise {A} e.

Definition bind {A B : Type} (m : result A) (k : A -> result B) : result B :=
  match m with
  | Ok a => k a
  | Raise e => Raise e
  end.

Definition is_ok {A : Type} (m : result A) : bool :=
  match m with
  | Ok _ => true
  | Raise _ => false
  end.

(** [str.split(sep)] with a one-character separator: n occurrences of the
    separator give n+1 parts, the empty string gives one empty part. *)
Fixpoint split (sep : ascii) (s : string) : list string :=
  match s with
  | EmptyString => [EmptyString]
  | String c r =>
      if Ascii.eqb c sep then EmptyString :: split sep r
      else match split sep r with
           | p :: ps => String c p :: ps
           | [] => [String c EmptyString]
           end
  end.

(** [sep in s] for a one-character [sep]. *)
Fixpoint contains (sep : ascii) (s : string) : bool :=
  match s with
  | EmptyString => false
  | String c r => Ascii.eqb c sep || contains sep r
  end.

(** [len(s)]. *)
Definition len (s : string) : Z := Z.of_nat (String.length s).

(** The slice [s[i:j]] for [0 <= i <= j]; like Python it stops at the end of
    the string. *)
Definition slice (i j : nat) (s : string) : string :=
  substring i (j - i) s.

(** The format spec [:0>2]: right-aligned in width 2, filled with ['0']. *)
Definition pad02 (s : string) : string :=
  match s with
  | EmptyString => "00"
  | String c EmptyString => String "0" (String c EmptyString)
  | _ => s
  end.

Definition upper_char (c : ascii) : ascii :=
  let n := nat_of_ascii c in
  if (97 <=? n)%nat && (n <=? 122)%nat then ascii_of_nat (n - 32) else c.

(** [s.upper()] on the ASCII letters.  The script only compares the result
    with ['GOAL'], and no character from 128 to 255 upper-cases to one of
    G, O, A, L, so that comparison is decided by the ASCII letters alone. *)
Fixpoint upper (s : string) : string :=
  match s with
  | EmptyString => EmptyString
  | String c r => String (upper_char c) (upper r)
  end.

(** [str(n)] and [f"{n}"] for an int. *)
Definition str_of_int (n : Z) : string := NilZero.string_of_int (Z.to_int n).

(** *** [int(s)] for a string, base 10

    CPython maps the non-ASCII white space (here U+0085 and U+00A0) to a
    blank, skips the white space [\t \n \v \f \r] and blank on both sides,
    reads an optional sign and then decimal digits, where single underscores
    may stand between two digits.  Anything else is a [ValueError]: [None]
    here.  (The limit on the number of digits that recent interpreters put
    on the conversion is not modelled.) *)
Definition is_space (c : ascii) : bool :=
  let n := nat_of_ascii c in
  ((9 <=? n)%nat && (n <=? 13)%nat) || (n =? 32)%nat || (n =? 133)%nat
  || (n =? 160)%nat.

Definition is_digit (c : ascii) : bool :=
  let n := nat_of_ascii c in (48 <=? n)%nat && (n <=? 57)%nat.

Definition digit_val (c : ascii) : Z := Z.of_nat (nat_of_ascii c - 48).

Fixpoint lstrip (s : string) : string :=
  match s with
  | EmptyString => EmptyString
  | String c r => if is_space c then lstrip r else s
  end.

Fixpoint rstrip (s : string) : string :=
  match s with
  | EmptyString => EmptyString
  | String c r =>
      match rstrip r with
      | EmptyString => if is_space c then EmptyString else String c EmptyString
      | r' => String c r'
      end
  end.

(** [after_digit] tells whether the previous character was a digit: an
    underscore is accepted only then, and the literal cannot end on one. *)
Fixpoint int_digits (after_digit : bool) (acc : Z) (s : string) : option Z :=
  match s with
  | EmptyString => if after_digit then Some acc else None
  | String c r =>
      if is_digit c then int_digits true (10 * acc + digit_val c) r
      else if Ascii.eqb c "_" && after_digit then int_digits false acc r
      else None
  end.

Definition int (s : string) : option Z :=
  match rstrip (lstrip s) with
  | String "+" r => int_digits false 0 r
  | String "-" r => Z.opp <$> int_digits false 0 r
  | t => int_digits false 0 t
  end.

End Py.

(** ** Data model *)

(** A JSON scalar: what the fields of an event of Input A hold (null, a
    boolean, an integer or a string; numbers with a fraction and nested
    arrays or objects are outside the model). *)
Inductive value : Type :=
  | VNone
  | VBool (b : bool)
  | VInt (n : Z)
  | VStr (s : string).

(** Truth value of a scalar, as [if v:] takes it. *)
Definition truthy (v : value) : bool :=
  match v with
  | VNone => false
  | VBool b => b
  | VInt n => negb (n =? 0)
  | VStr s => negb (String.eqb s "")
  end.

(** [f"{v}"]. *)
Definition str_of_value (v : value) : string :=
  match v with
  | VNone => "None"
  | VBool true => "True"
  | VBool false => "False"
  | VInt n => Py.str_of_int n
  | VStr s => s
  end.

(** Python's [==] on scalars, which is what a dict compares its keys with:
    [True == 1] and [False == 0]. *)
Definition value_eqb (a b : value) : bool :=
  match a, b with
  | VNone, VNone => true
  | VBool x, VBool y => Bool.eqb x y
  | VBool x, VInt n | VInt n, VBool x => n =? (if x then 1 else 0)
  | VInt n, VInt m => n =? m
  | VStr s, VStr t => String.eqb s t
  | _, _ => false
  end.

(** Truth value and rendering of a csv cell, [None] when the column is
    missing. *)
Definition truthy_cell (c : option string) : bool :=
  match c with
  | Some s => negb (String.eqb s "")
  | None => false
  end.

Definition str_of_cell (c : option string) : string := default "None" c.

(** [a or b]. *)
Definition or_cell (a b : option string) : option string :=
  if truthy_cell a then a else b.

Infix "|||" := or_cell (at level 50, left associativity).

(** A goalie name or shot type as a key of a counter. *)
Definition value_of_cell (c : option string) : value :=
  match c with
  | Some s => VStr s
  | None => VNone
  end.

(** An EventRecord: one JSON object of the ['goals'] list of Input A. *)
Abbreviation event := (gmap string value).

(** [goal.get(k)] and [goal.get(k, d)]. *)
Definition get (goal : event) (k : string) : value := default VNone (goal !! k).
Definition get_default (goal : event) (k : string) (d : value) : value :=
  default d (goal !! k).

(** The document of Input A: a JSON object whose ['goals'] entry, when
    there is one, is a list of events.  The other root entries are never
    read; their keys only make the object non-empty. *)
Record hr_document : Type := {
  hr_goals : option (list event);
  hr_other_keys : gset string;
}.

(** [bool(hr_data)] for a loaded document. *)
Definition hr_nonempty (d : hr_document) : bool :=
  match hr_goals d with
  | Some _ => true
  | None => negb (bool_decide (hr_other_keys d = ∅))
  end.

(** [hr_data.get('goals', [])]. *)
Definition goals_of (d : hr_document) : list event := default [] (hr_goals d).

(** A row of Input B as [csv.DictReader] yields it. *)
Abbreviation row := (gmap string string).

(** A counter: the [defaultdict(int)] of [rebuild_stats], in insertion
    order. *)
Abbreviation counter := (list (value * Z)).

(** [d[k] += 1]: an existing key keeps its place (and its first spelling),
    a new key goes to the end with count 1. *)
Fixpoint incr (k : value) (d : counter) : counter :=
  match d with
  | [] => [(k, 1)]
  | (k', n) :: r => if value_eqb k' k then (k', n + 1) :: r else (k', n) :: incr k r
  end.

(** [sum(d.values())]. *)
Definition total (d : counter) : Z := foldr (fun kv acc => kv.2 + acc) 0 d.

(** [sorted(d.items(), key=lambda x: x[1], reverse=True)].  Python's sort
    is stable, also with [reverse=True]: items of equal count keep their
    order.  A stable sort has one possible result, computed here by
    insertion: an item goes in front of the first item whose count is not
    larger than its own. *)
Fixpoint insert_desc (x : value * Z) (l : counter) : counter :=
  match l with
  | [] => [x]
  | y :: r => if x.2 <? y.2 then y :: insert_desc x r else x :: y :: r
  end.

Definition sorted_desc (d : counter) : counter := foldr insert_desc [] d.

(** Ovechkin's player ID in the NHL system. *)
Definition OVI_PLAYER_ID : Z := 8471214.

(** An instance of the float parser for the examples: plain decimal
    literals [digits] or [digits.digits] with an optional sign, read exactly
    as a fraction (numerator, power of ten). *)
Module SimpleFloat.

Definition t : Type := (Z * nat)%type.

Fixpoint digits (acc : Z) (s : string) : option Z :=
  match s with
  | EmptyString => Some acc
  | String c r =>
      if Py.is_digit c then digits (10 * acc + Py.digit_val c) r else None
  end.

Definition unsigned (s : string) : option t :=
  match Py.split "." s with
  | [i] => if String.eqb i "" then None else n ← digits 0 i; Some (n, 0%nat)
  | [i; f] =>
      if String.eqb (i ++ f) "" then None
      else n ← digits 0 (i ++ f); Some (n, String.length f)
  | _ => None
  end.

Definition parse (s : string) : option t :=
  match s with
  | String "-" r => '(n, e) ← unsigned r; Some (- n, e)
  | String "+" r => unsigned r
  | _ => unsigned s
  end.

End SimpleFloat.

(** The monad of functions that may raise, with stdpp's [x ← m; k]. *)
#[global] Instance result_ret : MRet Py.result := @Py.Ok.
#[global] Instance result_bind : MBind Py.result :=
  fun A B k m => Py.bind m k.

(** The line feed inside a printed string. *)
Definition nl : string := String (ascii_of_nat 10) EmptyString.

(** ** Loader B: date normalisation *)

(** The body of the [try] on the date; [None] is the [IndexError] of
    [parts[2]] (the f-string reads [parts[2]] first). *)
Definition reformat_date (game_date : string) : option string :=
  if Py.len game_date =? 8 then
    Some (Py.slice 0 4 game_date ++ "-" ++ Py.slice 4 6 game_date ++ "-"
          ++ Py.slice 6 8 game_date)
  else if Py.contains "/" game_date then
    let parts := Py.split "/" game_date in
    p2 ← parts !! 2%nat;
    p0 ← parts !! 0%nat;
    p1 ← parts !! 1%nat;
    Some (p2 ++ "-" ++ Py.pad02 p0 ++ "-" ++ Py.pad02 p1)
  else Some game_date.

(** [try: ... except: pass]: on an exception the raw value stays. *)
Definition normalize_date (game_date : string) : string :=
  default game_date (reformat_date game_date).

(** What the specification asks of a date: the YYYYMMDD rewriting is for
    strings of 8 digits, the MM/DD/YYYY rewriting for the other strings
    with a slash. *)
Definition all_digits (s : string) : bool :=
  forallb Py.is_digit (list_ascii_of_string s).

Definition spec_normalize_date (game_date : string) : string :=
  if (Py.len game_date =? 8) && all_digits game_date then
    Py.slice 0 4 game_date ++ "-" ++ Py.slice 4 6 game_date ++ "-"
    ++ Py.slice 6 8 game_date
  else if Py.contains "/" game_date then
    match Py.split "/" game_date with
    | p0 :: p1 :: p2 :: _ => p2 ++ "-" ++ Py.pad02 p0 ++ "-" ++ Py.pad02 p1
    | _ => game_date
    end
  else game_date.

(** The filter of the loader: [false] where the loop says [continue]. *)
Definition row_passes (r : row) : bool :=
  let shooter_id := r !! "shooterPlayerId" ||| r !! "shooter_id" in
  let event := r !! "event" ||| r !! "Event" in
  if negb (String.eqb (str_of_cell shooter_id) (Py.str_of_int OVI_PLAYER_ID))
  then false
  else if truthy_cell event
          && negb (String.eqb (Py.upper (default "" event)) "GOAL")
  then false
  else true.

(** The date of a row after [if game_date: ...]. *)
Definition row_date (r : row) : option string :=
  let game_date := r !! "gameDate" ||| r !! "game_date" ||| r !! "date" in
  if truthy_cell game_date then normalize_date <$> game_date else game_date.

(** The lookup key [f"{game_date}_{period}_{time_str}"]. *)
Definition row_key (r : row) : string :=
  let period := r !! "period" ||| r !! "Period" in
  let time_str := r !! "time" ||| r !! "Time" ||| r !! "periodTime" in
  str_of_cell (row_date r) ++ "_" ++ str_of_cell period ++ "_"
  ++ str_of_cell time_str.

(** Sample inputs of the examples. *)
Definition ovi_row (d p t x y : string) : row :=
  {[ "shooterPlayerId" := "8471214"; "event" := "GOAL"; "gameDate" := d;
     "period" := p; "time" := t; "xCord" := x; "yCord" := y;
     "goalieNameForShot" := "Martin Brodeur"; "shotType" := "WRIST" ]}.

Definition sample_event (t opp : string) (playoffs : bool) : event :=
  {[ "careerGoalNum" := VInt 1; "date" := VStr "2005-10-05";
     "season" := VStr "2005-06"; "opponent" := VStr opp;
     "period" := VInt 1; "time" := VStr t; "goalType" := VStr "EV";
     "primaryAssist" := VStr "Dainius Zubrus";
     "isPlayoffs" := VBool playoffs ]}.

Definition sample_document (l : list event) : hr_document :=
  {| hr_goals := Some l; hr_other_keys := ∅ |}.

Definition sample_goals : list event :=
  [sample_event "08:15" "NJD" false; sample_event "19:59" "NYR" true;
   sample_event "03:10" "" false; sample_event "12:00" "NJD" false].

Section Merge.

(** The float type and [float(s)] on a string, [None] for its
    [ValueError]; the paths of the three files; all fixed outside the
    script. *)
Variable float : Type.
Variable py_float : string -> option float.
Variables HR_FILE MP_FILE OUTPUT_FILE : string.

(** The shot-detail record of a row of Input B. *)
Record shot_detail : Type := {
  sd_xCoord : option float;
  sd_yCoord : option float;
  sd_goalieName : option string;
  sd_shotType : option string;
  sd_gameId : option string;
  sd_homeTeam : option string;
  sd_awayTeam : option string;
}.

(** ** Loader B: coordinates *)

(** [float(c) if c else None]; the outer [None] is the [ValueError]. *)
Definition parse_coord (c : option string) : option (option float) :=
  if truthy_cell c then Some <$> py_float (default "" c) else Some None.

(** The [try] around both conversions: the handler sets both to [None]. *)
Definition parse_coords (x_coord y_coord : option string)
  : option float * option float :=
  match parse_coord x_coord with
  | None => (None, None)
  | Some x =>
      match parse_coord y_coord with
      | None => (None, None)
      | Some y => (x, y)
      end
  end.

Definition row_x (r : row) : option string :=
  r !! "xCord" ||| r !! "xCoord" ||| r !! "x".
Definition row_y (r : row) : option string :=
  r !! "yCord" ||| r !! "yCoord" ||| r !! "y".

Definition row_detail (r : row) : shot_detail :=
  let xy := parse_coords (row_x r) (row_y r) in
  {| sd_xCoord := xy.1;
     sd_yCoord := xy.2;
     sd_goalieName :=
       r !! "goalieNameForShot" ||| r !! "goalie_name" ||| r !! "goalieName";
     sd_shotType := r !! "shotType" ||| r !! "shot_type";
     sd_gameId := r !! "game_id" ||| r !! "gameId";
     sd_homeTeam := r !! "homeTeamCode" ||| r !! "home_team";
     sd_awayTeam := r !! "awayTeamCode" ||| r !! "away_team" |}.

(** One turn of [for row in reader]. *)
Definition load_row (goals : gmap string shot_detail) (r : row)
  : gmap string shot_detail :=
  if row_passes r then <[row_key r := row_detail r]> goals else goals.

Definition load_rows (rows : list row) : gmap string shot_detail :=
  fold_left load_row rows ∅.

(** [load_moneypuck_goals()]: the file is [None] when it does not exist,
    else its rows in file order.  Returns the mapping and what was printed. *)
Definition load_moneypuck_goals (file : option (list row))
  : gmap string shot_detail * list string :=
  match file with
  | None =>
      (∅, ["Warning: " ++ MP_FILE ++ " not found.";
           "Download from: https://www.kaggle.com/datasets/mexwell/nhl-database";
           "Or: https://moneypuck.com/data.htm"])
  | Some rows =>
      let goals := load_rows rows in
      (goals, ["Loaded " ++ Py.str_of_int (Z.of_nat (size goals))
               ++ " Ovechkin goals from MoneyPuck"])
  end.

(** [load_hockey_reference()]. *)
Definition load_hockey_reference (file : option hr_document)
  : option hr_document * list string :=
  match file with
  | None =>
      (None, ["Warning: " ++ HR_FILE ++ " not found. Run the scraper first."])
  | Some d => (Some d, [])
  end.

(** ** Merger *)

(** A MergedRecord: the dict [merged_goal], whose keys are fixed. *)
Record merged_goal : Type := {
  careerGoalNum : value;
  date : value;
  season : value;
  seasonDisplay : value;
  opponent : value;
  period : value;
  time : value;
  goalType : value;
  primaryAssist : value;
  secondaryAssist : value;
  isPlayoffs : value;
  xCoord : option float;
  yCoord : option float;
  goalieName : option string;
  shotType : option string;
}.

(** The primary key [f"{hr_date}_{period}_{time}"] of an event. *)
Definition event_key (goal : event) : string :=
  str_of_value (get_default goal "date" (VStr "")) ++ "_"
  ++ str_of_value (get_default goal "period" (VStr "")) ++ "_"
  ++ str_of_value (get_default goal "time" (VStr "")).

(** The key of the second lookup, for the hour [n] and the part [m] after
    the colon. *)
Definition alt_key (goal : event) (n : Z) (m : string) : string :=
  str_of_value (get_default goal "date" (VStr "")) ++ "_"
  ++ str_of_value (get_default goal "period" (VStr "")) ++ "_"
  ++ (Py.str_of_int n ++ ":" ++ m).

(** The two lookups of one event.  A shot-detail record is a dict of seven
    keys, hence true: [not mp_data] holds exactly when the lookup missed.
    [time.split] is an [AttributeError] when [time] is not a string, and
    [int] a [ValueError] when the hour is not an integer literal. *)
Definition find_shot (mp_goals : gmap string shot_detail) (goal : event)
  : Py.result (option shot_detail) :=
  match mp_goals !! event_key goal with
  | Some mp_data => Py.Ok (Some mp_data)
  | None =>
      match get_default goal "time" (VStr "") with
      | VStr time =>
          match Py.split ":" time with
          | [h; m] =>
              match Py.int h with
              | Some n => Py.Ok (mp_goals !! alt_key goal n m)
              | None => Py.Raise Py.ValueError
              end
          | _ => Py.Ok None
          end
      | _ => Py.Raise Py.AttributeError
      end
  end.

(** The merged record: the fields of the event, then the four fields of
    [mp_data] when there is one ([mp_data.get(k)]), else [None] four times. *)
Definition merged_of (goal : event) (mp_data : option shot_detail)
  : merged_goal :=
  {| careerGoalNum := get goal "careerGoalNum";
     date := get_default goal "date" (VStr "");
     season := get goal "season";
     seasonDisplay := get goal "seasonDisplay";
     opponent := get goal "opponent";
     period := get_default goal "period" (VStr "");
     time := get_default goal "time" (VStr "");
     goalType := get goal "goalType";
     primaryAssist := get goal "primaryAssist";
     secondaryAssist := get goal "secondaryAssist";
     isPlayoffs := get_default goal "isPlayoffs" (VBool false);
     xCoord := mp_data ≫= sd_xCoord;
     yCoord := mp_data ≫= sd_yCoord;
     goalieName := mp_data ≫= sd_goalieName;
     shotType := mp_data ≫= sd_shotType |}.

(** The variables the loop of [merge_data] updates. *)
Record loop_state : Type := {
  merged_goals : list merged_goal;
  matched : Z;
  unmatched : Z;
}.

Definition loop_init : loop_state :=
  {| merged_goals := []; matched := 0; unmatched := 0 |}.

(** One turn of [for goal in hr_data.get('goals', [])]. *)
Definition merge_goal (mp_goals : gmap string shot_detail) (st : loop_state)
    (goal : event) : Py.result loop_state :=
  mp_data ← find_shot mp_goals goal;
  match mp_data with
  | Some _ =>
      mret {| merged_goals := merged_goals st ++ [merged_of goal mp_data];
              matched := matched st + 1;
              unmatched := unmatched st |}
  | None =>
      mret {| merged_goals := merged_goals st ++ [merged_of goal None];
              matched := matched st;
              unmatched := unmatched st + 1 |}
  end.

Fixpoint merge_loop (mp_goals : gmap string shot_detail) (goals : list event)
    (st : loop_state) : Py.result loop_state :=
  match goals with
  | [] => mret st
  | goal :: rest =>
      st' ← merge_goal mp_goals st goal;
      merge_loop mp_goals rest st'
  end.

(** ** Aggregator *)

(** The six [defaultdict(int)] of [rebuild_stats]. *)
Record counters : Type := {
  c_bySeason : counter;
  c_byOpponent : counter;
  c_byGoalType : counter;
  c_byGoalie : counter;
  c_byAnyAssist : counter;
  c_byShotType : counter;
}.

Definition counters_init : counters :=
  {| c_bySeason := []; c_byOpponent := []; c_byGoalType := [];
     c_byGoalie := []; c_byAnyAssist := []; c_byShotType := [] |}.

(** [if goal.get(f): d[goal[f]] += 1], for a JSON field and for a field
    taken from Input B. *)
Definition count_value (v : value) (d : counter) : counter :=
  if truthy v then incr v d else d.

Definition count_cell (c : option string) (d : counter) : counter :=
  if truthy_cell c then incr (value_of_cell c) d else d.

(** One turn of [for goal in regular_goals]. *)
Definition count_goal (st : counters) (goal : merged_goal) : counters :=
  {| c_bySeason := count_value (season goal) (c_bySeason st);
     c_byOpponent := count_value (opponent goal) (c_byOpponent st);
     c_byGoalType := count_value (goalType goal) (c_byGoalType st);
     c_byGoalie := count_cell (goalieName goal) (c_byGoalie st);
     c_byAnyAssist :=
       count_value (secondaryAssist goal)
         (count_value (primaryAssist goal) (c_byAnyAssist st));
     c_byShotType := count_cell (shotType goal) (c_byShotType st) |}.

(** [[g for g in goals if not g.get('isPlayoffs')]]. *)
Definition regular (goals : list merged_goal) : list merged_goal :=
  List.filter (fun g => negb (truthy (isPlayoffs g))) goals.

Definition playoff (goals : list merged_goal) : list merged_goal :=
  List.filter (fun g => truthy (isPlayoffs g)) goals.

(** The StatsSummary [result]. *)
Record stats_summary : Type := {
  bySeason : counter;
  byOpponent : counter;
  byGoalType : counter;
  byGoalie : counter;
  byAnyAssist : counter;
  byShotType : counter;
  topAssisters : counter;
  topGoalies : counter;
  topOpponents : counter;
}.

Definition rebuild_stats (goals : list merged_goal) : stats_summary :=
  let stats := fold_left count_goal (regular goals) counters_init in
  {| bySeason := c_bySeason stats;
     byOpponent := c_byOpponent stats;
     byGoalType := c_byGoalType stats;
     byGoalie := c_byGoalie stats;
     byAnyAssist := c_byAnyAssist stats;
     byShotType := c_byShotType stats;
     topAssisters := firstn 20 (sorted_desc (c_byAnyAssist stats));
     topGoalies := firstn 20 (sorted_desc (c_byGoalie stats));
     topOpponents := firstn 10 (sorted_desc (c_byOpponent stats)) |}.

(** ** The output document *)

Record metadata_t : Type := {
  player : string;
  playerId : Z;
  mergedAt : string;
  sources : list string;
  regularSeasonGoals : Z;
  playoffGoals : Z;
  goalsWithCoordinates : Z;
}.

Record output : Type := {
  metadata : metadata_t;
  stats : stats_summary;
  goals : list merged_goal;
}.

(** [merge_data(hr_data, mp_goals)]; [now] is [datetime.now().isoformat()].
    Returns [None] for no document, else the output, and what was printed. *)
Definition merge_data (hr_data : option hr_document)
    (mp_goals : gmap string shot_detail) (now : string)
  : Py.result (option output * list string) :=
  match hr_data with
  | Some d =>
      if hr_nonempty d then
        st ← merge_loop mp_goals (goals_of d) loop_init;
        mret (Some {| metadata :=
                        {| player := "Alex Ovechkin";
                           playerId := OVI_PLAYER_ID;
                           mergedAt := now;
                           sources := ["Hockey Reference"; "MoneyPuck"];
                           regularSeasonGoals :=
                             Z.of_nat (length (regular (merged_goals st)));
                           playoffGoals :=
                             Z.of_nat (length (playoff (merged_goals st)));
                           goalsWithCoordinates := matched st |};
                      stats := rebuild_stats (merged_goals st);
                      goals := merged_goals st |},
              [nl ++ "Merge results:";
               "  Matched: " ++ Py.str_of_int (matched st) ++ " goals";
               "  Unmatched: " ++ Py.str_of_int (unmatched st)
               ++ " goals (missing coordinates)"])
      else mret (None, ["No Hockey Reference data to merge"])
  | None => mret (None, ["No Hockey Reference data to merge"])
  end.

(** [f"  {name}: {count}"] for the first five items of a top list. *)
Definition preview (top : counter) : list string :=
  map (fun kv => "  " ++ str_of_value kv.1 ++ ": " ++ Py.str_of_int kv.2)
      (firstn 5 top).

(** [main()]: the two input files as found on disk ([None]: absent).
    Returns the document written to [OUTPUT_FILE], if any, and what was
    printed. *)
Definition main (hr_file : option hr_document) (mp_file : option (list row))
    (now : string) : Py.result (option output * list string) :=
  let out0 := ["=== Ovechkin Goals Data Merge ===" ++ nl] in
  let '(hr_data, out1) := load_hockey_reference hr_file in
  let '(mp_goals, out2) := load_moneypuck_goals mp_file in
  if match hr_data with Some d => hr_nonempty d | None => false end then
    '(merged, out3) ← merge_data hr_data mp_goals now;
    match merged with
    | Some doc =>
        mret (Some doc,
              (out0 ++ out1 ++ out2 ++ out3
               ++ [(nl ++ "=== Merge Complete ===")%string;
                   ("Output saved to: " ++ OUTPUT_FILE)%string;
                   (nl ++ "Top 5 Assisters:")%string]
               ++ preview (topAssisters (stats doc))
               ++ match topGoalies (stats doc) with
                  | [] => []
                  | _ => (nl ++ "Top 5 Goalies Scored Against:")%string
                         :: preview (topGoalies (stats doc))
                  end)%list)
    | None => mret (None, (out0 ++ out1 ++ out2 ++ out3)%list)
    end
  else
    mret (None,
          (out0 ++ out1 ++ out2
           ++ [(nl ++ "Cannot proceed without Hockey Reference data.")%string;
               "Run: npm run collect:hr"])%list).

(** ** Predicates of the statements *)

(** The second lookup of an event does not raise: its time is a string
    and, when that splits at the colon into two parts, [int] accepts the
    first. *)
Definition time_ok (goal : event) : bool :=
  match get_default goal "time" (VStr "") with
  | VStr time =>
      match Py.split ":" time with
      | [h; _] => bool_decide (is_Some (Py.int h))
      | _ => true
      end
  | _ => false
  end.

(** The event goes through the loop without an exception: the first lookup
    hits, or the second one does not raise. *)
Definition fallback_ok (mp_goals : gmap string shot_detail) (goal : event)
  : bool :=
  match mp_goals !! event_key goal with
  | Some _ => true
  | None => time_ok goal
  end.

(** The four shot-derived fields of a merged record are null. *)
Definition shot_fields_null (g : merged_goal) : Prop :=
  xCoord g = None /\ yCoord g = None /\ goalieName g = None
  /\ shotType g = None.

(** A non-empty coordinate cell that [float] rejects. *)
Definition unparseable (c : option string) : Prop :=
  truthy_cell c = true /\ py_float (default "" c) = None.

(** Descending order of the counts of a ranked list. *)
Definition count_ge (a b : value * Z) : Prop := b.2 <= a.2.

(** A non-playoff record with a true (non-empty) opponent. *)
Definition counts_opponent (g : merged_goal) : bool :=
  negb (truthy (isPlayoffs g)) && truthy (opponent g).

(** What the three printed lines of [merge_data] are for the counters of a
    finished loop. *)
Definition merge_report (st : loop_state) : list string :=
  [nl ++ "Merge results:";
   "  Matched: " ++ Py.str_of_int (matched st) ++ " goals";
   "  Unmatched: " ++ Py.str_of_int (unmatched st)
   ++ " goals (missing coordinates)"].

(** ** Further notions for the properties of the code *)

(** The shot-detail record the two lookups give an event: [None] when both
    miss, and when the second raises. *)
Definition shot_of (mp_goals : gmap string shot_detail) (goal : event)
  : option shot_detail :=
  match find_shot mp_goals goal with
  | Py.Ok mp_data => mp_data
  | Py.Raise _ => None
  end.

Definition found (mp_goals : gmap string shot_detail) (goal : event) : bool :=
  match shot_of mp_goals goal with
  | Some _ => true
  | None => false
  end.

(** The merged record has an x coordinate. *)
Definition has_x (g : merged_goal) : bool :=
  match xCoord g with
  | Some _ => true
  | None => false
  end.

(** One representative for the scalars that are equal for Python. *)
Definition canon (v : value) : value :=
  match v with
  | VBool b => VInt (if b then 1 else 0)
  | _ => v
  end.

(** [d.get(k, 0)] on a counter. *)
Fixpoint count_of (k : value) (d : counter) : Z :=
  match d with
  | [] => 0
  | (k', n) :: r => if value_eqb k' k then n else count_of k r
  end.

(** No two keys of the counter are equal for Python. *)
Fixpoint distinct_keys (d : counter) : bool :=
  match d with
  | [] => true
  | (k, _) :: r =>
      forallb (fun kv => negb (value_eqb kv.1 k)) r && distinct_keys r
  end.

(** The item has the count [n]. *)
Definition count_is (n : Z) (kv : value * Z) : bool := kv.2 =? n.

(** [top] holds [n] items of the counter [d] (all of them when it has
    fewer), and no item left out has a larger count than an item taken. *)
Definition is_top (n : nat) (top d : counter) : Prop :=
  length top = Nat.min n (length d)
  ∧ ∃ rest, Permutation (top ++ rest) d
            ∧ ∀ x y, x ∈ top → y ∈ rest → y.2 <= x.2.

(** A counter as the aggregator leaves it: distinct keys, all of them true,
    every count at least 1. *)
Definition counter_ok (d : counter) : Prop :=
  distinct_keys d = true
  ∧ Forall (fun kv => truthy kv.1 = true ∧ 1 <= kv.2) d.

(** ** The built-ins at work *)

Example split_time : Py.split ":" "08:15" = ["08"; "15"].
Proof. reflexivity. Qed.

Example split_no_colon : Py.split ":" "" = [""] ∧ Py.split ":" "815" = ["815"].
Proof. split; reflexivity. Qed.

Example int_leading_zero : Py.int "08" = Some 8 ∧ Py.str_of_int 8 = "8".
Proof. split; reflexivity. Qed.

Example int_blank_sign : Py.int " -0_8 " = Some (-8).
Proof. reflexivity. Qed.

Example int_rejects :
  Py.int "ab" = None ∧ Py.int "" = None ∧ Py.int "1__0" = None
  ∧ Py.int "_1" = None ∧ Py.int "1_" = None ∧ Py.int "+ 1" = None.
Proof. repeat split; reflexivity. Qed.

Example pad02_widths :
  Py.pad02 "5" = "05" ∧ Py.pad02 "" = "00" ∧ Py.pad02 "123" = "123".
Proof. repeat split; reflexivity. Qed.

Example str_of_value_forms :
  str_of_value VNone = "None" ∧ str_of_value (VBool true) = "True"
  ∧ str_of_value (VInt (-12)) = "-12".
Proof. repeat split; reflexivity. Qed.

(** Items of equal count keep their order, as in Python. *)
Example sorted_desc_ties :
  sorted_desc [(VStr "a", 1); (VStr "b", 2); (VStr "c", 1); (VStr "d", 2);
               (VStr "e", 3)]
  = [(VStr "e", 3); (VStr "b", 2); (VStr "d", 2); (VStr "a", 1);
     (VStr "c", 1)].
Proof. reflexivity. Qed.

(** [True] and [1] are one key, kept in its first spelling. *)
Example incr_bool_int :
  incr (VBool true) (incr (VInt 2) (incr (VStr "1") (incr (VInt 1)
    (incr (VBool true) []))))
  = [(VBool true, 3); (VStr "1", 1); (VInt 2, 1)].
Proof. reflexivity. Qed.

(** ** Loader B: dates *)

Example normalize_compact : normalize_date "20051005" = "2005-10-05".
Proof. reflexivity. Qed.

Example normalize_slashes : normalize_date "10/5/2005" = "2005-10-05".
Proof. reflexivity. Qed.

(** One slash only: [parts[2]] raises, the handler keeps the raw value. *)
Example normalize_index_error : normalize_date "10/2005" = "10/2005".
Proof. reflexivity. Qed.

(** Away from the strings of 8 characters that are not all digits, the
    code normalises a date the way the specification words it. *)
Lemma normalize_date_spec (d : string) :
  ¬ (Py.len d = 8 ∧ all_digits d = false) →
  normalize_date d = spec_normalize_date d.
Proof.
  intros Hd. unfold normalize_date, spec_normalize_date, reformat_date.
  destruct (Py.len d =? 8) eqn:Hlen.
  - destruct (all_digits d) eqn:Hdig; [reflexivity|].
    exfalso. apply Hd. split; [by apply Z.eqb_eq|reflexivity].
  - cbn [andb]. destruct (Py.contains "/" d); [|reflexivity].
    destruct (Py.split "/" d) as [|p0 [|p1 [|p2 ps]]]; reflexivity.
Qed.

(** C2: a date of 8 characters is cut at 4 and 6 whether or not it is made
    of digits, so the month/day/year date "1/5/2005" is not read as
    MM/DD/YYYY ("2005-01-05", what the specification's wording gives) but
    comes out as "1/5/-20-05", in the date and in the key of its row. *)
Theorem normalize_date_eight_chars :
  normalize_date "1/5/2005" = "1/5/-20-05"
  ∧ spec_normalize_date "1/5/2005" = "2005-01-05"
  ∧ row_date (ovi_row "1/5/2005" "1" "8:15" "" "") = Some "1/5/-20-05"
  ∧ row_key (ovi_row "1/5/2005" "1" "8:15" "" "") = "1/5/-20-05_1_8:15".
Proof. repeat split; vm_compute; reflexivity. Qed.

(** ** Loader B: coordinates *)

Lemma parse_coord_empty (c : option string) :
  truthy_cell c = false → parse_coord c = Some None.
Proof. intros Hc. unfold parse_coord. by rewrite Hc. Qed.

Lemma parse_coord_text (c : option string) :
  truthy_cell c = true → parse_coord c = Some <$> py_float (default "" c).
Proof. intros Hc. unfold parse_coord. by rewrite Hc. Qed.

Lemma parse_coord_raises (c : option string) :
  parse_coord c = None ↔ unparseable c.
Proof.
  unfold parse_coord, unparseable. destruct (truthy_cell c).
  - destruct (py_float (default "" c)); cbn; split; try done.
    intros [_ ?]; done.
  - split; [done|]. intros [? _]; done.
Qed.

(** One conversion that fails takes the other coordinate with it. *)
Lemma parse_coords_shared_failure (x y : option string) :
  unparseable x ∨ unparseable y → parse_coords x y = (None, None).
Proof.
  intros H. unfold parse_coords.
  destruct (parse_coord x) as [fx|] eqn:Hx; [|reflexivity].
  destruct (parse_coord y) as [fy|] eqn:Hy; [|reflexivity].
  destruct H as [H|H]; apply parse_coord_raises in H; congruence.
Qed.

(** C4 (as the code has it): when a non-empty coordinate cell is not a
    float literal, both coordinates of the row are null; otherwise each
    coordinate is null exactly when its own cell is empty or missing, and is
    the parsed float of its cell when that is not empty. *)
Theorem row_coordinates (r : row) :
  (unparseable (row_x r) ∨ unparseable (row_y r) →
   sd_xCoord (row_detail r) = None ∧ sd_yCoord (row_detail r) = None)
  ∧ (¬ (unparseable (row_x r) ∨ unparseable (row_y r)) →
     (sd_xCoord (row_detail r) = None ↔ truthy_cell (row_x r) = false)
     ∧ (sd_yCoord (row_detail r) = None ↔ truthy_cell (row_y r) = false)
     ∧ (truthy_cell (row_x r) = true →
        sd_xCoord (row_detail r) = py_float (default "" (row_x r)))
     ∧ (truthy_cell (row_y r) = true →
        sd_yCoord (row_detail r) = py_float (default "" (row_y r)))).
Proof.
  split.
  - intros H. cbn. by rewrite (parse_coords_shared_failure _ _ H).
  - intros H. cbn. unfold parse_coords.
    assert (Hx : ¬ unparseable (row_x r)) by tauto.
    assert (Hy : ¬ unparseable (row_y r)) by tauto.
    rewrite <- parse_coord_raises in Hx, Hy.
    destruct (parse_coord (row_x r)) as [fx|] eqn:Ex; [|done].
    destruct (parse_coord (row_y r)) as [fy|] eqn:Ey; [|done].
    cbn. unfold parse_coord in Ex, Ey.
    destruct (truthy_cell (row_x r)), (truthy_cell (row_y r));
      destruct (py_float (default "" (row_x r)));
      destruct (py_float (default "" (row_y r)));
      simplify_eq/=; repeat split; try done.
Qed.

(** ** Loader B: the mapping *)

(** A key stays what it is while no later filtered row builds it again. *)
Lemma load_rows_keeps (rows : list row) (goals : gmap string shot_detail)
    (k : string) (v : shot_detail) :
  goals !! k = Some v →
  (∀ r, r ∈ rows → row_passes r = true → row_key r ≠ k) →
  fold_left load_row rows goals !! k = Some v.
Proof.
  revert goals. induction rows as [|r rows IH]; intros goals Hk Hlater.
  - exact Hk.
  - cbn [fold_left]. apply IH.
    + unfold load_row. destruct (row_passes r) eqn:Hr; [|exact Hk].
      rewrite lookup_insert_ne; [exact Hk|].
      apply Hlater; [left|exact Hr].
    + intros r' Hin. apply Hlater. by right.
Qed.

(** C8: the mapping holds, under the key of a filtered row, the record of
    that row whenever no later filtered row has the same key, whatever the
    earlier rows with that key held; and the loader prints its one
    "Loaded" line and nothing about the rows it replaced. *)
Theorem last_row_wins (earlier later : list row) (r : row) :
  row_passes r = true →
  (∀ r', r' ∈ later → row_passes r' = true → row_key r' ≠ row_key r) →
  let loaded := load_moneypuck_goals (Some (earlier ++ r :: later)%list) in
  loaded.1 !! row_key r = Some (row_detail r)
  ∧ loaded.2 = ["Loaded " ++ Py.str_of_int (Z.of_nat (size loaded.1))
                ++ " Ovechkin goals from MoneyPuck"].
Proof.
  intros Hr Hlater. cbn. split; [|reflexivity].
  unfold load_rows. rewrite fold_left_app. cbn [fold_left].
  apply load_rows_keeps; [|exact Hlater].
  unfold load_row at 1. rewrite Hr. apply lookup_insert_eq.
Qed.

(** ** Aggregator *)

Lemma total_incr (k : value) (d : counter) : total (incr k d) = total d + 1.
Proof.
  induction d as [|[k' n] d IH]; cbn.
  - reflexivity.
  - destruct (value_eqb k' k); cbn; fold (total d); fold (total (incr k d)); lia.
Qed.

Lemma total_count_value (v : value) (d : counter) :
  total (count_value v d) = total d + (if truthy v then 1 else 0).
Proof.
  unfold count_value. destruct (truthy v); [apply total_incr|lia].
Qed.

Lemma count_opponents (l : list merged_goal) (st : counters) :
  total (c_byOpponent (fold_left count_goal l st))
  = total (c_byOpponent st)
    + Z.of_nat (length (List.filter (fun g => truthy (opponent g)) l)).
Proof.
  revert st. induction l as [|g l IH]; intros st; cbn [fold_left List.filter].
  - cbn. lia.
  - rewrite IH. cbn [count_goal c_byOpponent]. rewrite total_count_value.
    destruct (truthy (opponent g)); cbn [length]; lia.
Qed.

Lemma regular_with_opponent (l : list merged_goal) :
  List.filter (fun g => truthy (opponent g)) (regular l)
  = List.filter counts_opponent l.
Proof.
  unfold regular, counts_opponent.
  induction l as [|g l IH]; cbn; [reflexivity|].
  destruct (truthy (isPlayoffs g)); cbn; [exact IH|].
  destruct (truthy (opponent g)); by rewrite IH.
Qed.

(** For an opponent that is a string or null, true means not empty. *)
Lemma truthy_string (s : string) : truthy (VStr s) = true ↔ s ≠ "".
Proof.
  cbn. destruct (String.eqb_spec s ""); cbn; split; congruence.
Qed.

(** C5: the values of [byOpponent] add up to the number of merged records
    that are not playoff records and whose opponent is true, that is not
    empty (and not null); this holds of the statistics of any list of
    merged records, and of every output of [merge_data]. *)
Theorem byOpponent_total :
  (∀ gs : list merged_goal,
     total (byOpponent (rebuild_stats gs))
     = Z.of_nat (length (List.filter counts_opponent gs)))
  ∧ (∀ hr_data mp_goals now out printed,
       merge_data hr_data mp_goals now = Py.Ok (Some out, printed) →
       total (byOpponent (stats out))
       = Z.of_nat (length (List.filter counts_opponent (goals out)))).
Proof.
  assert (Hall : ∀ gs : list merged_goal,
             total (byOpponent (rebuild_stats gs))
             = Z.of_nat (length (List.filter counts_opponent gs))).
  { intros gs. cbn [rebuild_stats byOpponent].
    rewrite count_opponents, regular_with_opponent. cbn. lia. }
  split; [exact Hall|].
  intros hr_data mp_goals now out printed Hrun.
  unfold merge_data in Hrun.
  destruct hr_data as [d|]; [|discriminate].
  destruct (hr_nonempty d); [|discriminate].
  destruct (merge_loop mp_goals (goals_of d) loop_init) as [st|e];
    [|discriminate].
  cbn in Hrun. injection Hrun as <- _. cbn [stats goals]. apply Hall.
Qed.

Lemma Forall_insert_desc (P : value * Z → Prop) (x : value * Z) (l : counter) :
  P x → Forall P l → Forall P (insert_desc x l).
Proof.
  intros Hx Hl. induction Hl as [|y l Hy Hl IH]; cbn.
  - by constructor.
  - destruct (x.2 <? y.2); repeat constructor; assumption.
Qed.

Lemma insert_desc_sorted (x : value * Z) (l : counter) :
  StronglySorted count_ge l → StronglySorted count_ge (insert_desc x l).
Proof.
  induction 1 as [|y l Hl IH Hy]; cbn.
  - repeat constructor.
  - destruct (Z.ltb_spec x.2 y.2) as [Hlt|Hge].
    + constructor; [exact IH|].
      apply Forall_insert_desc; [unfold count_ge; lia|exact Hy].
    + constructor; [by constructor|].
      constructor; [exact Hge|].
      eapply Forall_impl; [exact Hy|]. unfold count_ge. intros z Hz. lia.
Qed.

Lemma sorted_desc_sorted (d : counter) : StronglySorted count_ge (sorted_desc d).
Proof.
  induction d as [|x d IH]; cbn; [constructor|by apply insert_desc_sorted].
Qed.

Lemma insert_desc_perm (x : value * Z) (l : counter) :
  Permutation (insert_desc x l) (x :: l).
Proof.
  induction l as [|y l IH]; cbn; [reflexivity|].
  destruct (x.2 <? y.2); [|reflexivity].
  rewrite IH. apply perm_swap.
Qed.

(** The sort keeps the items of the counter. *)
Lemma sorted_desc_perm (d : counter) : Permutation (sorted_desc d) d.
Proof.
  induction d as [|x d IH]; cbn; [reflexivity|].
  rewrite insert_desc_perm. by constructor.
Qed.

Lemma firstn_sorted (n : nat) (l : counter) :
  StronglySorted count_ge l → StronglySorted count_ge (firstn n l).
Proof.
  intros Hl. revert n. induction Hl as [|y l Hl IH Hy]; intros [|n]; cbn;
    try constructor.
  - apply IH.
  - by apply Forall_take.
Qed.

Lemma top_length (n : nat) (d : counter) :
  length (firstn n (sorted_desc d)) = Nat.min n (length d).
Proof.
  rewrite length_take. by rewrite (Permutation_length (sorted_desc_perm d)).
Qed.

(** C6: the ranked lists hold at most 20, 20 and 10 items (all the items
    of their counter when it has fewer) and each is in descending order of
    count. *)
Theorem top_lists (gs : list merged_goal) :
  let s := rebuild_stats gs in
  length (topAssisters s) = Nat.min 20 (length (byAnyAssist s))
  ∧ length (topGoalies s) = Nat.min 20 (length (byGoalie s))
  ∧ length (topOpponents s) = Nat.min 10 (length (byOpponent s))
  ∧ (length (topAssisters s) <= 20)%nat
  ∧ (length (topGoalies s) <= 20)%nat
  ∧ (length (topOpponents s) <= 10)%nat
  ∧ StronglySorted count_ge (topAssisters s)
  ∧ StronglySorted count_ge (topGoalies s)
  ∧ StronglySorted count_ge (topOpponents s).
Proof.
  cbn [rebuild_stats topAssisters topGoalies topOpponents byAnyAssist
       byGoalie byOpponent].
  rewrite !top_length.
  repeat split; try lia; apply firstn_sorted, sorted_desc_sorted.
Qed.

(** ** Merger: one event *)

Lemma find_shot_hit (mp_goals : gmap string shot_detail) (goal : event)
    (d : shot_detail) :
  mp_goals !! event_key goal = Some d → find_shot mp_goals goal = Py.Ok (Some d).
Proof. intros H. unfold find_shot. by rewrite H. Qed.

Lemma find_shot_safe (mp_goals : gmap string shot_detail) (goal : event) :
  fallback_ok mp_goals goal = true → ∃ r, find_shot mp_goals goal = Py.Ok r.
Proof.
  unfold fallback_ok, find_shot, time_ok.
  destruct (mp_goals !! event_key goal) as [d|]; [eauto|].
  destruct (get_default goal "time" (VStr "")) as [|b|n|t]; try discriminate.
  destruct (Py.split ":" t) as [|h [|m [|x ps]]]; eauto.
  destruct (Py.int h) as [n|]; [eauto|].
  intros H. apply bool_decide_eq_true in H. by destruct H.
Qed.

Lemma find_shot_unsafe (mp_goals : gmap string shot_detail) (goal : event) :
  fallback_ok mp_goals goal = false → ∃ e, find_shot mp_goals goal = Py.Raise e.
Proof.
  unfold fallback_ok, find_shot, time_ok.
  destruct (mp_goals !! event_key goal) as [d|]; [discriminate|].
  destruct (get_default goal "time" (VStr "")) as [|b|n|t]; eauto.
  destruct (Py.split ":" t) as [|h [|m [|x ps]]]; try discriminate.
  destruct (Py.int h) as [n|]; [|eauto].
  intros H. apply bool_decide_eq_false in H. destruct H. eauto.
Qed.

(** What one turn of the loop does to its variables. *)
Lemma merge_goal_ok (mp_goals : gmap string shot_detail) (st st' : loop_state)
    (goal : event) :
  merge_goal mp_goals st goal = Py.Ok st' →
  ∃ mp_data,
    find_shot mp_goals goal = Py.Ok mp_data
    ∧ merged_goals st' = (merged_goals st ++ [merged_of goal mp_data])%list
    ∧ matched st' = matched st + match mp_data with Some _ => 1 | None => 0 end
    ∧ unmatched st'
      = unmatched st + match mp_data with Some _ => 0 | None => 1 end.
Proof.
  unfold merge_goal. destruct (find_shot mp_goals goal) as [[d|]|e]; cbn;
    unfold mret, result_ret; intros [= <-];
    (eexists; split; [reflexivity|]); cbn; repeat split; lia.
Qed.

Lemma merge_goal_raise (mp_goals : gmap string shot_detail) (st : loop_state)
    (goal : event) (e : Py.exn) :
  find_shot mp_goals goal = Py.Raise e → merge_goal mp_goals st goal = Py.Raise e.
Proof. intros H. unfold merge_goal. by rewrite H. Qed.

(** ** Merger: the loop *)

Lemma merge_loop_ok (mp_goals : gmap string shot_detail) (gs : list event)
    (st st' : loop_state) :
  merge_loop mp_goals gs st = Py.Ok st' →
  length (merged_goals st') = (length (merged_goals st) + length gs)%nat
  ∧ matched st' + unmatched st'
    = matched st + unmatched st + Z.of_nat (length gs)
  ∧ matched st <= matched st'
  ∧ forallb (fallback_ok mp_goals) gs = true.
Proof.
  revert st. induction gs as [|g gs IH]; intros st; cbn [merge_loop].
  - intros [= <-]. cbn. repeat split; lia.
  - destruct (merge_goal mp_goals st g) as [st1|e] eqn:Hg; [|discriminate].
    cbn. intros Hrest. apply IH in Hrest as (Hlen & Hsum & Hle & Hsafe).
    destruct (merge_goal_ok _ _ _ _ Hg) as (mp_data & Hfind & Hm & Hma & Hun).
    rewrite Hm, length_app in Hlen. cbn in Hlen.
    assert (fallback_ok mp_goals g = true) as ->.
    { destruct (fallback_ok mp_goals g) eqn:Hf; [done|].
      apply find_shot_unsafe in Hf as [e He]. congruence. }
    rewrite Hsafe. cbn [length andb].
    repeat split; destruct mp_data; lia.
Qed.

Lemma merge_loop_total (mp_goals : gmap string shot_detail) (gs : list event)
    (st : loop_state) :
  forallb (fallback_ok mp_goals) gs = true →
  ∃ st', merge_loop mp_goals gs st = Py.Ok st'.
Proof.
  revert st. induction gs as [|g gs IH]; intros st; cbn [merge_loop forallb].
  - eauto.
  - intros [Hg Hgs]%andb_true_iff.
    destruct (find_shot_safe _ _ Hg) as [r Hr].
    unfold merge_goal. rewrite Hr. destruct r; cbn; apply IH, Hgs.
Qed.

(** The first event that raises ends the loop with its exception. *)
Lemma merge_loop_raise (mp_goals : gmap string shot_detail)
    (pre post : list event) (goal : event) (st : loop_state) (e : Py.exn) :
  forallb (fallback_ok mp_goals) pre = true →
  find_shot mp_goals goal = Py.Raise e →
  merge_loop mp_goals (pre ++ goal :: post) st = Py.Raise e.
Proof.
  intros Hpre Hgoal. revert st Hpre.
  induction pre as [|g pre IH]; intros st; cbn [merge_loop forallb app].
  - intros _. by rewrite (merge_goal_raise _ _ _ _ Hgoal).
  - intros [Hg Hpre]%andb_true_iff.
    destruct (find_shot_safe _ _ Hg) as [r Hr].
    unfold merge_goal at 1. rewrite Hr. destruct r; cbn; by apply IH.
Qed.

Lemma merge_loop_unsafe (mp_goals : gmap string shot_detail) (gs : list event)
    (st : loop_state) :
  forallb (fallback_ok mp_goals) gs = false →
  ∃ e, merge_loop mp_goals gs st = Py.Raise e.
Proof.
  revert st. induction gs as [|g gs IH]; intros st; cbn [merge_loop forallb].
  - discriminate.
  - destruct (fallback_ok mp_goals g) eqn:Hg; cbn [andb].
    + intros Hgs. destruct (find_shot_safe _ _ Hg) as [r Hr].
      unfold merge_goal. rewrite Hr. destruct r; cbn; by apply IH.
    + intros _. destruct (find_shot_unsafe _ _ Hg) as [e He].
      exists e. by rewrite (merge_goal_raise _ _ _ _ He).
Qed.

(** [merge_data] on a loaded, non-empty document is its loop followed by
    the assembly of the output. *)
Lemma merge_data_loop (d : hr_document) (mp_goals : gmap string shot_detail)
    (now : string) (st : loop_state) :
  hr_nonempty d = true →
  merge_loop mp_goals (goals_of d) loop_init = Py.Ok st →
  ∃ out,
    merge_data (Some d) mp_goals now = Py.Ok (Some out, merge_report st)
    ∧ goals out = merged_goals st
    ∧ stats out = rebuild_stats (merged_goals st)
    ∧ goalsWithCoordinates (metadata out) = matched st.
Proof.
  intros Hd Hloop. unfold merge_data. rewrite Hd, Hloop. cbn.
  eexists. split; [reflexivity|]. by cbn.
Qed.

Lemma merge_data_raise (d : hr_document) (mp_goals : gmap string shot_detail)
    (now : string) (e : Py.exn) :
  hr_nonempty d = true →
  merge_loop mp_goals (goals_of d) loop_init = Py.Raise e →
  merge_data (Some d) mp_goals now = Py.Raise e.
Proof. intros Hd Hloop. unfold merge_data. by rewrite Hd, Hloop. Qed.

(** An output comes from a non-empty document and a loop that finished. *)
Lemma merge_data_inv (hr_data : option hr_document)
    (mp_goals : gmap string shot_detail) (now : string) (out : output)
    (printed : list string) :
  merge_data hr_data mp_goals now = Py.Ok (Some out, printed) →
  ∃ d st,
    hr_data = Some d ∧ hr_nonempty d = true
    ∧ merge_loop mp_goals (goals_of d) loop_init = Py.Ok st
    ∧ goals out = merged_goals st.
Proof.
  unfold merge_data. destruct hr_data as [d|]; [|discriminate].
  destruct (hr_nonempty d) eqn:Hd; [|discriminate].
  destruct (merge_loop mp_goals (goals_of d) loop_init) as [st|e] eqn:Hloop;
    [|discriminate].
  cbn. intros [= <- _]. by exists d, st.
Qed.

Lemma merge_data_stats (hr_data : option hr_document)
    (mp_goals : gmap string shot_detail) (now : string) (out : output)
    (printed : list string) :
  merge_data hr_data mp_goals now = Py.Ok (Some out, printed) →
  stats out = rebuild_stats (goals out).
Proof.
  unfold merge_data. destruct hr_data as [d|]; [|discriminate].
  destruct (hr_nonempty d); [|discriminate].
  destruct (merge_loop mp_goals (goals_of d) loop_init) as [st|e];
    [|discriminate].
  cbn. by intros [= <- _].
Qed.

Lemma goals_nonempty (d : hr_document) (goal : event) :
  goal ∈ goals_of d → hr_nonempty d = true.
Proof.
  unfold goals_of, hr_nonempty. destruct (hr_goals d); [done|].
  cbn. by intros ?%elem_of_nil.
Qed.

(** C1 (as the code has it): for a non-empty document whose events all go
    through the two lookups without an exception (the first lookup hits, or
    the time is a string whose hour part, when there are two parts, [int]
    accepts), [merge_data] returns an output with one merged record per
    event; and whenever it returns an output, that output has as many
    records as the document has events. *)
Theorem merge_data_length (d : hr_document) (mp_goals : gmap string shot_detail)
    (now : string) :
  (hr_nonempty d = true →
   forallb (fallback_ok mp_goals) (goals_of d) = true →
   ∃ out printed,
     merge_data (Some d) mp_goals now = Py.Ok (Some out, printed)
     ∧ length (goals out) = length (goals_of d))
  ∧ (∀ out printed,
       merge_data (Some d) mp_goals now = Py.Ok (Some out, printed) →
       length (goals out) = length (goals_of d)).
Proof.
  split.
  - intros Hd Hsafe.
    destruct (merge_loop_total mp_goals _ loop_init Hsafe) as [st Hst].
    destruct (merge_data_loop d mp_goals now st Hd Hst)
      as (out & Hrun & Hgoals & _).
    exists out, (merge_report st). split; [exact Hrun|].
    rewrite Hgoals. by destruct (merge_loop_ok _ _ _ _ Hst) as [-> _].
  - intros out printed Hrun.
    apply merge_data_inv in Hrun as (d' & st & [= <-] & _ & Hst & ->).
    by destruct (merge_loop_ok _ _ _ _ Hst) as [-> _].
Qed.

(** C3 (as the code has it): when the first lookup of an event misses,
    its time splits at the colon into an hour [h] and a rest [m], and [int]
    accepts [h], the merger looks up, once, the key rebuilt with
    [str(int(h))], which has no leading zero; so an event at "08:15" gets
    the shot-detail entry keyed with "8:15" for the same date and period,
    and counts as matched. *)
Theorem fallback_lookup (mp_goals : gmap string shot_detail) (goal : event) :
  (∀ t h m n,
     mp_goals !! event_key goal = None →
     get_default goal "time" (VStr "") = VStr t →
     Py.split ":" t = [h; m] →
     Py.int h = Some n →
     find_shot mp_goals goal = Py.Ok (mp_goals !! alt_key goal n m))
  ∧ (∀ d st,
       mp_goals !! event_key goal = None →
       get_default goal "time" (VStr "") = VStr "08:15" →
       mp_goals !! (str_of_value (get_default goal "date" (VStr "")) ++ "_"
                    ++ str_of_value (get_default goal "period" (VStr ""))
                    ++ "_" ++ "8:15") = Some d →
       find_shot mp_goals goal = Py.Ok (Some d)
       ∧ merge_goal mp_goals st goal
         = Py.Ok {| merged_goals :=
                      merged_goals st ++ [merged_of goal (Some d)];
                    matched := matched st + 1;
                    unmatched := unmatched st |}).
Proof.
  assert (Hfirst : ∀ t h m n,
             mp_goals !! event_key goal = None →
             get_default goal "time" (VStr "") = VStr t →
             Py.split ":" t = [h; m] →
             Py.int h = Some n →
             find_shot mp_goals goal = Py.Ok (mp_goals !! alt_key goal n m)).
  { intros t h m n Hmiss Ht Hsplit Hint.
    unfold find_shot. by rewrite Hmiss, Ht, Hsplit, Hint. }
  split; [exact Hfirst|].
  intros d st Hmiss Ht Hd.
  assert (Hfind : find_shot mp_goals goal = Py.Ok (Some d)).
  { rewrite (Hfirst "08:15" "08" "15" 8 Hmiss Ht eq_refl eq_refl).
    unfold alt_key. by rewrite <- Hd. }
  split; [exact Hfind|]. unfold merge_goal. by rewrite Hfind.
Qed.

(** ** Merger without Input B *)

Lemma fallback_ok_empty (goal : event) : fallback_ok ∅ goal = time_ok goal.
Proof. unfold fallback_ok. by rewrite lookup_empty. Qed.

Lemma find_shot_empty (goal : event) (r : option shot_detail) :
  find_shot ∅ goal = Py.Ok r → r = None.
Proof.
  unfold find_shot. rewrite lookup_empty.
  destruct (get_default goal "time" (VStr "")) as [|b|n|t]; try discriminate.
  destruct (Py.split ":" t) as [|h [|m [|x ps]]]; try congruence.
  destruct (Py.int h); [|discriminate].
  rewrite lookup_empty. congruence.
Qed.

Lemma merge_loop_empty (gs : list event) (st st' : loop_state) :
  merge_loop ∅ gs st = Py.Ok st' →
  Forall shot_fields_null (merged_goals st) →
  Forall shot_fields_null (merged_goals st') ∧ matched st' = matched st.
Proof.
  revert st. induction gs as [|g gs IH]; intros st; cbn [merge_loop].
  - by intros [= <-].
  - destruct (merge_goal ∅ st g) as [st1|e] eqn:Hg; [|discriminate].
    cbn. intros Hrest Hnull.
    destruct (merge_goal_ok _ _ _ _ Hg) as (r & Hfind & Hm & Hma & _).
    apply find_shot_empty in Hfind as ->.
    apply IH in Hrest as [Hall ->].
    + split; [exact Hall|lia].
    + rewrite Hm. apply Forall_app. split; [exact Hnull|].
      by repeat constructor.
Qed.

(** The run writes what [merge_data] returns and raises what it raises. *)
Lemma main_output (d : hr_document) (mp_file : option (list row))
    (now : string) (out : output) (printed : list string) :
  hr_nonempty d = true →
  main (Some d) mp_file now = Py.Ok (Some out, printed) →
  ∃ printed',
    merge_data (Some d) (load_moneypuck_goals mp_file).1 now
    = Py.Ok (Some out, printed').
Proof.
  intros Hd. unfold main. cbn [load_hockey_reference].
  destruct (load_moneypuck_goals mp_file) as [mp_goals out2]. rewrite Hd.
  cbn [fst].
  destruct (merge_data (Some d) mp_goals now) as [[[doc|] out3]|e]; cbn;
    try discriminate.
  unfold mret, result_ret. intros [= <- _]. by exists out3.
Qed.

Lemma main_runs (d : hr_document) (mp_file : option (list row))
    (now : string) (out : output) (printed : list string) :
  hr_nonempty d = true →
  merge_data (Some d) (load_moneypuck_goals mp_file).1 now
  = Py.Ok (Some out, printed) →
  ∃ printed', main (Some d) mp_file now = Py.Ok (Some out, printed').
Proof.
  intros Hd. unfold main. cbn [load_hockey_reference].
  destruct (load_moneypuck_goals mp_file) as [mp_goals out2]. rewrite Hd.
  cbn [fst]. intros ->. cbn. eauto.
Qed.

Lemma main_raise (d : hr_document) (mp_file : option (list row))
    (now : string) (e : Py.exn) :
  hr_nonempty d = true →
  merge_data (Some d) (load_moneypuck_goals mp_file).1 now = Py.Raise e →
  main (Some d) mp_file now = Py.Raise e.
Proof.
  intros Hd. unfold main. cbn [load_hockey_reference].
  destruct (load_moneypuck_goals mp_file) as [mp_goals out2]. rewrite Hd.
  cbn [fst]. by intros ->.
Qed.

(** C7 (as the code has it): without the file of Input B the loader
    returns the empty mapping (and prints its warning).  Then every event
    takes the second lookup, so the run writes an output when Input A is a
    non-empty document whose events all have a string time with, when it
    has two parts, an hour that [int] accepts; every output written has one
    record per event, the four shot-derived fields of every record null,
    and [goalsWithCoordinates] 0. *)
Theorem missing_shots_file (d : hr_document) (now : string) :
  load_moneypuck_goals None
  = (∅, ["Warning: " ++ MP_FILE ++ " not found.";
         "Download from: https://www.kaggle.com/datasets/mexwell/nhl-database";
         "Or: https://moneypuck.com/data.htm"])
  ∧ (hr_nonempty d = true →
     forallb time_ok (goals_of d) = true →
     ∃ out printed,
       main (Some d) None now = Py.Ok (Some out, printed)
       ∧ length (goals out) = length (goals_of d)
       ∧ Forall shot_fields_null (goals out)
       ∧ goalsWithCoordinates (metadata out) = 0)
  ∧ (∀ out printed,
       main (Some d) None now = Py.Ok (Some out, printed) →
       length (goals out) = length (goals_of d)
       ∧ Forall shot_fields_null (goals out)
       ∧ goalsWithCoordinates (metadata out) = 0).
Proof.
  assert (Hloop : ∀ st,
             merge_loop ∅ (goals_of d) loop_init = Py.Ok st →
             length (merged_goals st) = length (goals_of d)
             ∧ Forall shot_fields_null (merged_goals st)
             ∧ matched st = 0).
  { intros st Hst.
    destruct (merge_loop_ok _ _ _ _ Hst) as [-> _].
    destruct (merge_loop_empty _ _ _ Hst) as [Hnull ->]; [constructor|].
    by repeat split. }
  split; [reflexivity|]. split.
  - intros Hd Htimes.
    assert (Hsafe : forallb (fallback_ok ∅) (goals_of d) = true).
    { clear -Htimes. induction (goals_of d) as [|g gs IH]; [done|].
      cbn [forallb] in *. rewrite fallback_ok_empty.
      destruct (time_ok g); [by apply IH|done]. }
    destruct (merge_loop_total ∅ _ loop_init Hsafe) as [st Hst].
    destruct (merge_data_loop d ∅ now st Hd Hst)
      as (out & Hrun & Hgoals & _ & Hcount).
    destruct (main_runs d None now out _ Hd Hrun) as [printed Hmain].
    exists out, printed. rewrite Hgoals, Hcount.
    split; [exact Hmain|]. by apply Hloop.
  - intros out printed Hmain.
    assert (Hd : hr_nonempty d = true).
    { unfold main in Hmain. cbn in Hmain.
      by destruct (hr_nonempty d). }
    apply (main_output _ _ _ _ _ Hd) in Hmain as [printed' Hrun].
    cbn [load_moneypuck_goals fst] in Hrun.
    pose proof Hrun as Hinv.
    apply merge_data_inv in Hinv as (d' & st & [= <-] & _ & Hst & Hgoals).
    destruct (merge_data_loop d ∅ now st Hd Hst) as (out' & Hrun' & _ & _ & Hc).
    rewrite Hrun in Hrun'. injection Hrun' as <- _.
    rewrite Hgoals, Hc. by apply Hloop.
Qed.

(** C9: when the loop of [merge_data] has finished, [merge_data] returns
    an output with the merged records of the loop, prints the two counters,
    the two counters add up to the number of merged records, and
    [goalsWithCoordinates] is the matched counter; every turn of the loop
    adds one to exactly one of the two counters. *)
Theorem merge_counters (d : hr_document) (mp_goals : gmap string shot_detail)
    (now : string) (st : loop_state) :
  hr_nonempty d = true →
  merge_loop mp_goals (goals_of d) loop_init = Py.Ok st →
  (∃ out,
     merge_data (Some d) mp_goals now = Py.Ok (Some out, merge_report st)
     ∧ goals out = merged_goals st
     ∧ matched st + unmatched st = Z.of_nat (length (goals out))
     ∧ goalsWithCoordinates (metadata out) = matched st)
  ∧ (∀ s s' goal,
       merge_goal mp_goals s goal = Py.Ok s' →
       (matched s' = matched s + 1 ∧ unmatched s' = unmatched s)
       ∨ (matched s' = matched s ∧ unmatched s' = unmatched s + 1)).
Proof.
  intros Hd Hst. split.
  - destruct (merge_data_loop d mp_goals now st Hd Hst)
      as (out & Hrun & Hgoals & _ & Hcount).
    exists out. repeat split; try assumption.
    rewrite Hgoals.
    destruct (merge_loop_ok _ _ _ _ Hst) as (Hlen & Hsum & _).
    rewrite Hsum, Hlen. cbn. lia.
  - intros s s' goal Hgoal.
    destruct (merge_goal_ok _ _ _ _ Hgoal) as (r & _ & _ & Hm & Hu).
    destruct r; [left|right]; lia.
Qed.

(** C10: an event whose first lookup misses and whose time has two parts
    with an hour that [int] rejects makes its turn of the loop raise
    [ValueError]; no merged record is made for it, [merge_data] raises
    whenever the event is in the document ([ValueError] when the events
    before it went through), and so does the whole run. *)
Theorem bad_hour_raises (mp_goals : gmap string shot_detail) (goal : event)
    (t h m : string) :
  mp_goals !! event_key goal = None →
  get_default goal "time" (VStr "") = VStr t →
  Py.split ":" t = [h; m] →
  Py.int h = None →
  (∀ st, merge_goal mp_goals st goal = Py.Raise Py.ValueError)
  ∧ (∀ d now pre post,
       goals_of d = (pre ++ goal :: post)%list →
       forallb (fallback_ok mp_goals) pre = true →
       merge_data (Some d) mp_goals now = Py.Raise Py.ValueError)
  ∧ (∀ d now,
       goal ∈ goals_of d → ∃ e, merge_data (Some d) mp_goals now = Py.Raise e)
  ∧ (∀ d mp_file now,
       (load_moneypuck_goals mp_file).1 = mp_goals →
       goal ∈ goals_of d → ∃ e, main (Some d) mp_file now = Py.Raise e).
Proof.
  intros Hmiss Ht Hsplit Hint.
  assert (Hfind : find_shot mp_goals goal = Py.Raise Py.ValueError).
  { unfold find_shot. by rewrite Hmiss, Ht, Hsplit, Hint. }
  assert (Hany : ∀ d now,
             goal ∈ goals_of d →
             ∃ e, merge_data (Some d) mp_goals now = Py.Raise e).
  { intros d now Hin.
    destruct (merge_loop_unsafe mp_goals (goals_of d) loop_init) as [e He].
    - destruct (forallb (fallback_ok mp_goals) (goals_of d)) eqn:Hall; [|done].
      rewrite forallb_forall in Hall.
      apply list_elem_of_In, Hall in Hin.
      destruct (find_shot_safe _ _ Hin). congruence.
    - exists e. apply merge_data_raise; [|exact He].
      by apply (goals_nonempty d goal). }
  split; [|split; [|split]].
  - intros st. by apply merge_goal_raise.
  - intros d now pre post Hgoals Hpre.
    apply merge_data_raise.
    + apply (goals_nonempty d goal). rewrite Hgoals. set_solver.
    + rewrite Hgoals. by apply merge_loop_raise.
  - exact Hany.
  - intros d mp_file now Hmp Hin.
    destruct (Hany d now Hin) as [e He]. exists e.
    apply main_raise; [by apply (goals_nonempty d goal)|by rewrite Hmp].
Qed.

(** ** More on Loader B *)

Lemma load_rows_filter_from (rows : list row) (goals : gmap string shot_detail) :
  fold_left load_row rows goals
  = fold_left load_row (List.filter row_passes rows) goals.
Proof.
  revert goals. induction rows as [|r rows IH]; intros goals; [reflexivity|].
  cbn [fold_left List.filter].
  destruct (row_passes r) eqn:Hr; cbn [fold_left]; rewrite IH; [reflexivity|].
  assert (load_row goals r = goals) as ->; [|reflexivity].
  unfold load_row. by rewrite Hr.
Qed.

(** X1: the rows the filter rejects (another shooter, an event type other
    than a goal) leave no trace: the loader returns the same mapping, and
    prints the same line, as on the filtered rows alone. *)
Theorem load_ignores_rejected_rows (rows : list row) :
  load_moneypuck_goals (Some rows)
  = load_moneypuck_goals (Some (List.filter row_passes rows)).
Proof.
  cbn. unfold load_rows. by rewrite <- load_rows_filter_from.
Qed.

Lemma load_rows_from_lookup (rows : list row) (goals : gmap string shot_detail)
    (k : string) (v : shot_detail) :
  fold_left load_row rows goals !! k = Some v →
  goals !! k = Some v
  ∨ ∃ r, r ∈ rows ∧ row_passes r = true ∧ row_key r = k ∧ row_detail r = v.
Proof.
  revert goals. induction rows as [|r rows IH]; intros goals; cbn [fold_left].
  - by left.
  - intros [Hk|(r' & Hin & Hp & Hkey & Hv)]%IH.
    + unfold load_row in Hk. destruct (row_passes r) eqn:Hr; [|by left].
      destruct (decide (row_key r = k)) as [<-|Hne].
      * rewrite lookup_insert_eq in Hk. injection Hk as <-.
        right. exists r. repeat split; [left|done].
      * rewrite lookup_insert_ne in Hk by done. by left.
    + right. exists r'. repeat split; try done. by right.
Qed.

Lemma load_rows_from_present (rows : list row)
    (goals : gmap string shot_detail) (k : string) :
  is_Some (goals !! k) → is_Some (fold_left load_row rows goals !! k).
Proof.
  revert goals. induction rows as [|r rows IH]; intros goals Hk; [exact Hk|].
  cbn [fold_left]. apply IH. unfold load_row.
  destruct (row_passes r); [|exact Hk].
  destruct (decide (row_key r = k)) as [<-|Hne].
  - rewrite lookup_insert_eq. by eexists.
  - by rewrite lookup_insert_ne.
Qed.

Lemma loaded_from_row (rows : list row) (k : string) (v : shot_detail) :
  (load_moneypuck_goals (Some rows)).1 !! k = Some v →
  ∃ r, r ∈ rows ∧ row_passes r = true ∧ row_key r = k ∧ row_detail r = v.
Proof.
  cbn [load_moneypuck_goals fst]. unfold load_rows.
  intros [Hk|Hr]%load_rows_from_lookup; [|exact Hr].
  by rewrite lookup_empty in Hk.
Qed.

(** X2: every entry of the mapping is the record of a filtered row of the
    file, stored under that row's key; and every filtered row has its key
    in the mapping. *)
Theorem loaded_entries_come_from_rows (rows : list row) :
  (∀ k v,
     (load_moneypuck_goals (Some rows)).1 !! k = Some v →
     ∃ r, r ∈ rows ∧ row_passes r = true ∧ row_key r = k ∧ row_detail r = v)
  ∧ (∀ r,
       r ∈ rows → row_passes r = true →
       is_Some ((load_moneypuck_goals (Some rows)).1 !! row_key r)).
Proof.
  split; [apply loaded_from_row|].
  cbn [load_moneypuck_goals fst]. unfold load_rows.
  - intros r Hin Hr. apply list_elem_of_split in Hin as (l1 & l2 & ->).
    rewrite fold_left_app. cbn [fold_left]. apply load_rows_from_present.
    unfold load_row at 1. rewrite Hr, lookup_insert_eq. by eexists.
Qed.

Lemma load_rows_size_le (rows : list row) (goals : gmap string shot_detail) :
  (size (fold_left load_row rows goals)
   <= size goals + length (List.filter row_passes rows))%nat.
Proof.
  revert goals. induction rows as [|r rows IH]; intros goals;
    cbn [fold_left List.filter]; [lia|].
  etransitivity; [apply IH|]. unfold load_row.
  destruct (row_passes r); cbn [length]; [|lia].
  destruct (goals !! row_key r) as [v|] eqn:Hk.
  - rewrite map_size_insert_Some by (by rewrite Hk). lia.
  - rewrite map_size_insert_None by done. lia.
Qed.

Lemma load_rows_size_all (rows : list row) (goals : gmap string shot_detail) :
  (size (fold_left load_row rows goals) <= size goals + length rows)%nat.
Proof.
  etransitivity; [apply load_rows_size_le|].
  apply Nat.add_le_mono_l. induction rows as [|x l IHl]; cbn; [lia|].
  destruct (row_passes x); cbn; lia.
Qed.

Lemma load_rows_size_eq (rows : list row) (goals : gmap string shot_detail) :
  NoDup (map row_key (List.filter row_passes rows)) →
  (∀ r, r ∈ rows → row_passes r = true → goals !! row_key r = None) →
  size (fold_left load_row rows goals)
  = (size goals + length (List.filter row_passes rows))%nat.
Proof.
  revert goals. induction rows as [|r rows IH]; intros goals;
    cbn [fold_left List.filter]; [cbn; intros; lia|].
  unfold load_row at 2. destruct (row_passes r) eqn:Hr.
  - cbn [map length]. intros [Hfresh Hnodup]%NoDup_cons Hnew.
    rewrite IH; [|exact Hnodup|].
    + rewrite map_size_insert_None; [lia|]. apply Hnew; [left|exact Hr].
    + intros r' Hin Hr'. rewrite lookup_insert_ne; [apply Hnew; [by right|done]|].
      intros Heq. apply Hfresh. rewrite Heq. apply list_elem_of_fmap.
      exists r'. split; [done|]. apply list_elem_of_In, filter_In.
      split; [by apply list_elem_of_In|done].
  - intros Hnodup Hnew. apply IH; [exact Hnodup|].
    intros r' Hin. apply Hnew. by right.
Qed.

(** X3: the number of goals the loader reports is at most the number of
    filtered rows, and is that number when the filtered rows build
    different keys: every collision of keys loses one row. *)
Theorem loaded_count (rows : list row) :
  let loaded := load_moneypuck_goals (Some rows) in
  let kept := List.filter row_passes rows in
  (size loaded.1 <= length kept)%nat
  ∧ (NoDup (map row_key kept) → size loaded.1 = length kept)
  ∧ (∀ l1 r l2 r' l3,
       kept = (l1 ++ r :: l2 ++ r' :: l3)%list → row_key r = row_key r' →
       (size loaded.1 < length kept)%nat).
Proof.
  clear HR_FILE OUTPUT_FILE.
  cbn [load_moneypuck_goals fst]. unfold load_rows. repeat split.
  - pose proof (load_rows_size_le rows ∅) as H.
    by rewrite map_size_empty in H.
  - intros Hnodup. rewrite load_rows_size_eq; [by rewrite map_size_empty|done|].
    intros r _ _. apply lookup_empty.
  - intros l1 r l2 r' l3 Hkept Hkey.
    assert (Hp : ∀ x, x ∈ List.filter row_passes rows → row_passes x = true).
    { intros x Hx. apply list_elem_of_In, filter_In in Hx. tauto. }
    assert (Hr : row_passes r = true).
    { apply Hp. rewrite Hkept. apply elem_of_app. right. left. }
    assert (Hr' : row_passes r' = true).
    { apply Hp. rewrite Hkept. apply elem_of_app. right. right.
      apply elem_of_app. right. left. }
    rewrite load_rows_filter_from, Hkept.
    rewrite fold_left_app. cbn [fold_left].
    rewrite fold_left_app. cbn [fold_left].
    set (m0 := fold_left load_row l1 ∅).
    set (m1 := fold_left load_row l2 (load_row m0 r)).
    assert (H0 : (size m0 <= length l1)%nat).
    { pose proof (load_rows_size_all l1 ∅) as H.
      by rewrite map_size_empty in H. }
    assert (H1 : (size m1 <= S (size m0) + length l2)%nat).
    { etransitivity; [apply load_rows_size_all|].
      pose proof (load_rows_size_all [r] m0) as H. cbn in H. lia. }
    assert (Hin : is_Some (m1 !! row_key r')).
    { apply load_rows_from_present.
      unfold load_row. rewrite Hr, Hkey, lookup_insert_eq. by eexists. }
    destruct Hin as [v Hv].
    assert (H2 : size (load_row m1 r') = size m1).
    { unfold load_row. rewrite Hr'. apply map_size_insert_Some.
      by rewrite Hv. }
    pose proof (load_rows_size_all l3 (load_row m1 r')) as H3.
    rewrite !length_app. cbn [length]. rewrite !length_app. cbn [length]. lia.
Qed.

(** ** More on the dates *)

Lemma append_cons (c : ascii) (a b : string) :
  String c a ++ b = String c (a ++ b).
Proof. reflexivity. Qed.

Lemma split_app (sep : ascii) (a b : string) :
  Py.contains sep a = false →
  Py.split sep (a ++ String sep b) = a :: Py.split sep b.
Proof.
  induction a as [|c a IH].
  - intros _. change ("" ++ String sep b) with (String sep b).
    cbn [Py.split]. by rewrite Ascii.eqb_refl.
  - cbn [Py.contains]. intros [Hc Ha]%orb_false_iff.
    rewrite append_cons. cbn [Py.split]. by rewrite Hc, (IH Ha).
Qed.

Lemma split_whole (sep : ascii) (a : string) :
  Py.contains sep a = false → Py.split sep a = [a].
Proof.
  induction a as [|c a IH]; cbn [Py.split Py.contains]; [reflexivity|].
  intros [Hc Ha]%orb_false_iff. by rewrite Hc, (IH Ha).
Qed.

Lemma contains_app (sep : ascii) (a b : string) :
  Py.contains sep (a ++ String sep b) = true.
Proof.
  induction a as [|c a IH].
  - change ("" ++ String sep b) with (String sep b).
    cbn [Py.contains]. by rewrite Ascii.eqb_refl.
  - rewrite append_cons. cbn [Py.contains]. rewrite IH. apply orb_true_r.
Qed.

(** X4: what the loader makes of a date.  Eight characters YYYYMMDD become
    YYYY-MM-DD; month/day/year with slashes, when not 8 characters long,
    becomes year-month-day with month and day padded to two characters; a
    date of another length without a slash stays as it is, and so does one
    with a single slash (the [IndexError] is swallowed). *)
Theorem normalize_date_forms :
  (∀ y m d,
     String.length y = 4%nat → String.length m = 2%nat →
     String.length d = 2%nat →
     normalize_date (y ++ m ++ d) = y ++ "-" ++ m ++ "-" ++ d)
  ∧ (∀ m d y,
       Py.contains "/" m = false → Py.contains "/" d = false →
       Py.contains "/" y = false →
       Py.len (m ++ "/" ++ d ++ "/" ++ y) ≠ 8 →
       normalize_date (m ++ "/" ++ d ++ "/" ++ y)
       = y ++ "-" ++ Py.pad02 m ++ "-" ++ Py.pad02 d)
  ∧ (∀ d,
       Py.len d ≠ 8 → Py.contains "/" d = false → normalize_date d = d)
  ∧ (∀ a b,
       Py.contains "/" a = false → Py.contains "/" b = false →
       Py.len (a ++ "/" ++ b) ≠ 8 →
       normalize_date (a ++ "/" ++ b) = a ++ "/" ++ b).
Proof.
  split; [|split; [|split]].
  - intros y m d Hy Hm Hd.
    destruct y as [|y1 [|y2 [|y3 [|y4 [|? ?]]]]]; try discriminate Hy.
    destruct m as [|m1 [|m2 [|? ?]]]; try discriminate Hm.
    destruct d as [|d1 [|d2 [|? ?]]]; try discriminate Hd.
    reflexivity.
  - intros m d y Hm Hd Hy Hlen.
    unfold normalize_date, reformat_date.
    destruct (Z.eqb_spec (Py.len (m ++ "/" ++ d ++ "/" ++ y)) 8) as [|_];
      [done|].
    change (m ++ "/" ++ d ++ "/" ++ y)
      with (m ++ String "/" (d ++ String "/" y)).
    rewrite contains_app, (split_app _ _ _ Hm), (split_app _ _ _ Hd),
      (split_whole _ _ Hy).
    reflexivity.
  - intros d Hlen Hd. unfold normalize_date, reformat_date.
    destruct (Z.eqb_spec (Py.len d) 8) as [|_]; [done|]. by rewrite Hd.
  - intros a b Ha Hb Hlen. unfold normalize_date, reformat_date.
    destruct (Z.eqb_spec (Py.len (a ++ "/" ++ b)) 8) as [|_]; [done|].
    change (a ++ "/" ++ b) with (a ++ String "/" b).
    rewrite contains_app, (split_app _ _ _ Ha), (split_whole _ _ Hb).
    reflexivity.
Qed.

(** ** More on the merger *)

Lemma shot_of_ok (mp_goals : gmap string shot_detail) (goal : event)
    (r : option shot_detail) :
  find_shot mp_goals goal = Py.Ok r → shot_of mp_goals goal = r.
Proof. intros H. unfold shot_of. by rewrite H. Qed.

Lemma merge_loop_map (mp_goals : gmap string shot_detail) (gs : list event)
    (st st' : loop_state) :
  merge_loop mp_goals gs st = Py.Ok st' →
  merged_goals st'
  = (merged_goals st
     ++ map (fun g => merged_of g (shot_of mp_goals g)) gs)%list
  ∧ matched st'
    = matched st + Z.of_nat (length (List.filter (found mp_goals) gs)).
Proof.
  revert st. induction gs as [|g gs IH]; intros st; cbn [merge_loop].
  - intros [= <-]. cbn. rewrite app_nil_r. split; [reflexivity|lia].
  - destruct (merge_goal mp_goals st g) as [st1|e] eqn:Hg; [|discriminate].
    cbn. intros [Hm Hc]%IH.
    destruct (merge_goal_ok _ _ _ _ Hg) as (r & Hfind & Hm1 & Hc1 & _).
    apply shot_of_ok in Hfind. cbn [map List.filter].
    assert (Hf : found mp_goals g
                 = match r with Some _ => true | None => false end)
      by (unfold found; by rewrite Hfind).
    rewrite Hf, Hfind, Hm, Hm1, Hc, Hc1, <- app_assoc. cbn [app].
    split; [reflexivity|]. destruct r; cbn [length]; lia.
Qed.

Lemma lookup_map_Some {A B : Type} (f : A → B) (l : list A) (i : nat) (x : A) :
  l !! i = Some x → map f l !! i = Some (f x).
Proof.
  revert i. induction l as [|y l IH]; intros [|i]; cbn; try done.
  - by intros [= ->].
  - apply IH.
Qed.

Lemma merge_data_map (d : hr_document) (mp_goals : gmap string shot_detail)
    (now : string) (out : output) (printed : list string) :
  merge_data (Some d) mp_goals now = Py.Ok (Some out, printed) →
  goals out = map (fun g => merged_of g (shot_of mp_goals g)) (goals_of d).
Proof.
  intros Hrun.
  apply merge_data_inv in Hrun as (d' & st & [= <-] & _ & Hst & Hgoals).
  apply merge_loop_map in Hst as [Hm _]. cbn in Hm. by rewrite Hgoals, Hm.
Qed.

(** X5: the merged records are the events in their order, each with the
    fields of its event and the shot detail its lookups found: the i-th
    record of the output belongs to the i-th event. *)
Theorem merged_in_order (d : hr_document) (mp_goals : gmap string shot_detail)
    (now : string) (out : output) (printed : list string) :
  merge_data (Some d) mp_goals now = Py.Ok (Some out, printed) →
  goals out = map (fun g => merged_of g (shot_of mp_goals g)) (goals_of d)
  ∧ ∀ (i : nat) e,
      goals_of d !! i = Some e →
      ∃ g, goals out !! i = Some g
           ∧ careerGoalNum g = get e "careerGoalNum"
           ∧ date g = get_default e "date" (VStr "")
           ∧ period g = get_default e "period" (VStr "")
           ∧ time g = get_default e "time" (VStr "")
           ∧ opponent g = get e "opponent"
           ∧ isPlayoffs g = get_default e "isPlayoffs" (VBool false).
Proof.
  intros Hrun. rewrite (merge_data_map _ _ _ _ _ Hrun).
  split; [reflexivity|].
  intros i e Hi. exists (merged_of e (shot_of mp_goals e)).
  split; [|done].
  by apply (lookup_map_Some (fun g => merged_of g (shot_of mp_goals g))).
Qed.


Lemma main_nonempty (d : hr_document) (mp_file : option (list row))
    (now : string) (out : output) (printed : list string) :
  main (Some d) mp_file now = Py.Ok (Some out, printed) →
  hr_nonempty d = true.
Proof.
  unfold main. cbn [load_hockey_reference].
  destruct (load_moneypuck_goals mp_file) as [mp_goals out2].
  by destruct (hr_nonempty d).
Qed.


Lemma has_x_found (mp_goals : gmap string shot_detail) (gs : list event) :
  (length (List.filter has_x
             (map (fun g => merged_of g (shot_of mp_goals g)) gs))
   <= length (List.filter (found mp_goals) gs))%nat.
Proof.
  induction gs as [|g gs IH]; cbn [map List.filter]; [done|].
  unfold has_x at 1, found at 1. cbn [merged_of xCoord].
  destruct (shot_of mp_goals g) as [sd|]; cbn [mbind option_bind length].
  - destruct (sd_xCoord sd); cbn [length]; lia.
  - exact IH.
Qed.

(** X7: [goalsWithCoordinates] is the number of events whose lookups found
    a shot-detail entry; the records that do have an x coordinate are at
    most that many (a matched record has none when its row had none). *)
Theorem goalsWithCoordinates_counts_matches (d : hr_document)
    (mp_goals : gmap string shot_detail) (now : string) (out : output)
    (printed : list string) :
  merge_data (Some d) mp_goals now = Py.Ok (Some out, printed) →
  goalsWithCoordinates (metadata out)
  = Z.of_nat (length (List.filter (found mp_goals) (goals_of d)))
  ∧ Z.of_nat (length (List.filter has_x (goals out)))
    <= goalsWithCoordinates (metadata out).
Proof.
  intros Hrun. pose proof Hrun as Hinv.
  apply merge_data_inv in Hinv as (d' & st & [= <-] & Hd & Hst & _).
  pose proof (merge_data_map _ _ _ _ _ Hrun) as Hgoals.
  destruct (merge_data_loop d mp_goals now st Hd Hst)
    as (out' & Hrun' & _ & _ & Hc).
  rewrite Hrun in Hrun'. injection Hrun' as <- _.
  apply merge_loop_map in Hst as [_ Hm]. cbn in Hm.
  rewrite Hc, Hm, Hgoals. split; [lia|].
  pose proof (has_x_found mp_goals (goals_of d)). lia.
Qed.

Lemma regular_playoff_length (gs : list merged_goal) :
  (length (regular gs) + length (playoff gs))%nat = length gs.
Proof.
  unfold regular, playoff. induction gs as [|g gs IH]; cbn; [done|].
  destruct (truthy (isPlayoffs g)); cbn; lia.
Qed.

(** X8: in the metadata of every output the regular-season goals and the
    playoff goals add up to the number of merged records, and the regular
    ones are those whose playoff flag is not true. *)
Theorem season_split (hr_data : option hr_document)
    (mp_goals : gmap string shot_detail) (now : string) (out : output)
    (printed : list string) :
  merge_data hr_data mp_goals now = Py.Ok (Some out, printed) →
  regularSeasonGoals (metadata out) + playoffGoals (metadata out)
  = Z.of_nat (length (goals out))
  ∧ regularSeasonGoals (metadata out)
    = Z.of_nat (length (List.filter
                          (fun g => negb (truthy (isPlayoffs g))) (goals out))).
Proof.
  unfold merge_data. destruct hr_data as [d|]; [|discriminate].
  destruct (hr_nonempty d); [|discriminate].
  destruct (merge_loop mp_goals (goals_of d) loop_init) as [st|e];
    [|discriminate].
  cbn. intros [= <- _]. cbn. split; [|reflexivity].
  rewrite <- (regular_playoff_length (merged_goals st)). lia.
Qed.


(** X10: without Input A (no file, or an empty object) the run raises
    nothing and writes nothing, whatever Input B holds; it still reads
    Input B first, and ends on its two lines of advice. *)
Theorem no_input_A (hr_file : option hr_document)
    (mp_file : option (list row)) (now : string) :
  match hr_file with Some d => hr_nonempty d = false | None => True end →
  main hr_file mp_file now
  = Py.Ok (None,
           ([("=== Ovechkin Goals Data Merge ===" ++ nl)%string]
            ++ (load_hockey_reference hr_file).2
            ++ (load_moneypuck_goals mp_file).2
            ++ [(nl ++ "Cannot proceed without Hockey Reference data.")%string;
                "Run: npm run collect:hr"%string])%list).
Proof.
  intros Hhr. unfold main.
  destruct (load_moneypuck_goals mp_file) as [mp_goals out2].
  destruct hr_file as [d|]; cbn [load_hockey_reference snd].
  - by rewrite Hhr.
  - reflexivity.
Qed.

(** X11: with Input A loaded and non-empty, the run writes exactly the
    output [merge_data] returns on the mapping of the loader, and raises
    exactly the exception it raises. *)
Theorem main_is_merge_data (d : hr_document) (mp_file : option (list row))
    (now : string) :
  hr_nonempty d = true →
  (∀ out,
     (∃ printed, main (Some d) mp_file now = Py.Ok (Some out, printed))
     ↔ (∃ printed,
          merge_data (Some d) (load_moneypuck_goals mp_file).1 now
          = Py.Ok (Some out, printed)))
  ∧ (∀ e,
       main (Some d) mp_file now = Py.Raise e
       ↔ merge_data (Some d) (load_moneypuck_goals mp_file).1 now
         = Py.Raise e).
Proof.
  intros Hd. split.
  - intros out. split; intros [printed H].
    + by apply (main_output _ _ _ _ _ Hd) in H.
    + by apply (main_runs _ _ _ _ _ Hd) in H.
  - intros e. split; [|by apply main_raise].
    unfold main. cbn [load_hockey_reference].
    destruct (load_moneypuck_goals mp_file) as [mp_goals out2]. rewrite Hd.
    cbn [fst].
    destruct (merge_data (Some d) mp_goals now) as [[[doc|] out3]|e'];
      cbn; unfold mret, result_ret; congruence.
Qed.

(** X18: loader and merger together: an event whose key is the key of a
    filtered row of Input B, with no later filtered row of that key, comes
    out with the coordinates, goalie and shot type of that row, at the
    place of the event; its time is not looked at again. *)
Theorem event_gets_its_row (d : hr_document) (earlier later : list row)
    (r : row) (now : string) (out : output) (printed : list string)
    (i : nat) (e : event) :
  row_passes r = true →
  (∀ r', r' ∈ later → row_passes r' = true → row_key r' ≠ row_key r) →
  goals_of d !! i = Some e →
  event_key e = row_key r →
  main (Some d) (Some (earlier ++ r :: later)%list) now
  = Py.Ok (Some out, printed) →
  ∃ g, goals out !! i = Some g
       ∧ g = merged_of e (Some (row_detail r))
       ∧ xCoord g = sd_xCoord (row_detail r)
       ∧ yCoord g = sd_yCoord (row_detail r)
       ∧ goalieName g = sd_goalieName (row_detail r)
       ∧ shotType g = sd_shotType (row_detail r).
Proof.
  intros Hr Hlater Hi Hkey Hmain.
  pose proof (main_nonempty _ _ _ _ _ Hmain) as Hd.
  apply (main_output _ _ _ _ _ Hd) in Hmain as [printed' Hrun].
  apply merge_data_map in Hrun as ->.
  exists (merged_of e (Some (row_detail r))).
  split; [|by repeat split].
  rewrite (lookup_map_Some (fun g => merged_of g (shot_of _ g)) _ _ _ Hi).
  do 2 f_equal.
  apply shot_of_ok, find_shot_hit. rewrite Hkey.
  cbn [load_moneypuck_goals fst]. unfold load_rows.
  rewrite fold_left_app. cbn [fold_left].
  apply load_rows_keeps; [|exact Hlater].
  unfold load_row at 1. rewrite Hr. apply lookup_insert_eq.
Qed.

(** ** More on the aggregator *)

Lemma regular_idemp (gs : list merged_goal) : regular (regular gs) = regular gs.
Proof.
  unfold regular. induction gs as [|g gs IH]; cbn; [done|].
  destruct (truthy (isPlayoffs g)) eqn:Hg; cbn; [done|].
  by rewrite Hg, IH.
Qed.

Lemma regular_app (l1 l2 : list merged_goal) :
  regular (l1 ++ l2) = (regular l1 ++ regular l2)%list.
Proof. apply List.filter_app. Qed.

(** X12: playoff goals never reach the statistics: the summary of a list is
    the summary of its regular-season records, and putting a playoff record
    anywhere in the list changes nothing. *)
Theorem stats_ignore_playoffs (gs : list merged_goal) :
  rebuild_stats gs = rebuild_stats (regular gs)
  ∧ ∀ l1 g l2,
      gs = (l1 ++ l2)%list → truthy (isPlayoffs g) = true →
      rebuild_stats (l1 ++ g :: l2) = rebuild_stats gs.
Proof.
  split.
  - unfold rebuild_stats. by rewrite regular_idemp.
  - intros l1 g l2 -> Hg.
    assert (Hreg : regular (l1 ++ g :: l2) = regular (l1 ++ l2)).
    { rewrite !regular_app. f_equal. unfold regular. cbn [List.filter].
      by rewrite Hg. }
    unfold rebuild_stats. by rewrite Hreg.
Qed.

(** How a counter that one field feeds grows over the loop. *)
Lemma fold_total (proj : counters → counter) (w : merged_goal → Z)
    (l : list merged_goal) (st : counters) :
  (∀ st g, total (proj (count_goal st g)) = total (proj st) + w g) →
  total (proj (fold_left count_goal l st))
  = total (proj st) + foldr (fun g acc => w g + acc) 0 l.
Proof.
  intros Hstep. revert st.
  induction l as [|g l IH]; intros st; cbn [fold_left foldr]; [lia|].
  rewrite IH, Hstep. lia.
Qed.

Lemma sum_indicator (p : merged_goal → bool) (l : list merged_goal) :
  foldr (fun g acc => (if p g then 1 else 0) + acc) 0 l
  = Z.of_nat (length (List.filter p l)).
Proof.
  induction l as [|g l IH]; cbn [foldr List.filter]; [done|].
  rewrite IH. destruct (p g); cbn [length]; lia.
Qed.

Lemma sum_two_indicators (p q : merged_goal → bool) (l : list merged_goal) :
  foldr (fun g acc => ((if p g then 1 else 0) + (if q g then 1 else 0)) + acc)
        0 l
  = Z.of_nat (length (List.filter p l)) + Z.of_nat (length (List.filter q l)).
Proof.
  induction l as [|g l IH]; cbn [foldr List.filter]; [done|].
  rewrite IH. destruct (p g), (q g); cbn [length]; lia.
Qed.

Lemma total_count_cell (c : option string) (d : counter) :
  total (count_cell c d) = total d + (if truthy_cell c then 1 else 0).
Proof.
  unfold count_cell. destruct (truthy_cell c); [apply total_incr|lia].
Qed.

(** X13: the values of each counter add up to the number of regular-season
    records whose field is true (not empty); for the assists, to the number
    of true primary assists plus the number of true secondary assists. *)
Theorem counter_totals (gs : list merged_goal) :
  let s := rebuild_stats gs in
  let r := regular gs in
  total (bySeason s)
  = Z.of_nat (length (List.filter (fun g => truthy (season g)) r))
  ∧ total (byGoalType s)
    = Z.of_nat (length (List.filter (fun g => truthy (goalType g)) r))
  ∧ total (byGoalie s)
    = Z.of_nat (length (List.filter (fun g => truthy_cell (goalieName g)) r))
  ∧ total (byShotType s)
    = Z.of_nat (length (List.filter (fun g => truthy_cell (shotType g)) r))
  ∧ total (byAnyAssist s)
    = Z.of_nat (length (List.filter (fun g => truthy (primaryAssist g)) r))
      + Z.of_nat (length (List.filter
                            (fun g => truthy (secondaryAssist g)) r)).
Proof.
  cbn zeta. unfold rebuild_stats.
  cbn [bySeason byGoalType byGoalie byShotType byAnyAssist].
  repeat split.
  - rewrite (fold_total c_bySeason
               (fun g => if truthy (season g) then 1 else 0)).
    + by rewrite sum_indicator.
    + intros st g. cbn. apply total_count_value.
  - rewrite (fold_total c_byGoalType
               (fun g => if truthy (goalType g) then 1 else 0)).
    + by rewrite sum_indicator.
    + intros st g. cbn. apply total_count_value.
  - rewrite (fold_total c_byGoalie
               (fun g => if truthy_cell (goalieName g) then 1 else 0)).
    + by rewrite sum_indicator.
    + intros st g. cbn. apply total_count_cell.
  - rewrite (fold_total c_byShotType
               (fun g => if truthy_cell (shotType g) then 1 else 0)).
    + by rewrite sum_indicator.
    + intros st g. cbn. apply total_count_cell.
  - rewrite (fold_total c_byAnyAssist
               (fun g => (if truthy (primaryAssist g) then 1 else 0)
                         + (if truthy (secondaryAssist g) then 1 else 0))).
    + by rewrite sum_two_indicators.
    + intros st g. cbn. rewrite !total_count_value. lia.
Qed.

(** Python's equality of scalars is an equivalence. *)
Lemma value_eqb_canon (a b : value) :
  value_eqb a b = true ↔ canon a = canon b.
Proof.
  destruct a as [|x|n|s], b as [|y|m|t]; cbn; split; try done.
  - destruct x, y; done.
  - destruct x, y; done.
  - intros ->%Z.eqb_eq. reflexivity.
  - intros [= ->]. apply Z.eqb_refl.
  - intros ->%Z.eqb_eq. reflexivity.
  - intros [= ->]. apply Z.eqb_refl.
  - intros ->%Z.eqb_eq. reflexivity.
  - intros [= ->]. apply Z.eqb_refl.
  - intros ->%String.eqb_eq. reflexivity.
  - intros [= ->]. apply String.eqb_refl.
Qed.

Lemma value_eqb_sym (a b : value) : value_eqb a b = value_eqb b a.
Proof.
  destruct (value_eqb a b) eqn:Hab, (value_eqb b a) eqn:Hba; try done.
  - apply value_eqb_canon in Hab. symmetry in Hab.
    apply value_eqb_canon in Hab. congruence.
  - apply value_eqb_canon in Hba. symmetry in Hba.
    apply value_eqb_canon in Hba. congruence.
Qed.

Lemma value_eqb_eq_l (a b c : value) :
  value_eqb a b = true → value_eqb a c = value_eqb b c.
Proof.
  intros Hab%value_eqb_canon.
  destruct (value_eqb a c) eqn:Hac, (value_eqb b c) eqn:Hbc; try done.
  - apply value_eqb_canon in Hac. rewrite Hab in Hac.
    apply value_eqb_canon in Hac. congruence.
  - apply value_eqb_canon in Hbc. rewrite <- Hab in Hbc.
    apply value_eqb_canon in Hbc. congruence.
Qed.

Lemma count_of_incr (k k' : value) (d : counter) :
  count_of k (incr k' d)
  = count_of k d + (if value_eqb k' k then 1 else 0).
Proof.
  induction d as [|[k1 n] d IH]; cbn [incr count_of].
  - destruct (value_eqb k' k); lia.
  - destruct (value_eqb k1 k') eqn:H1; cbn [count_of].
    + rewrite <- (value_eqb_eq_l _ _ k H1). destruct (value_eqb k1 k); lia.
    + destruct (value_eqb k1 k) eqn:H2; [|exact IH].
      rewrite (value_eqb_eq_l _ _ k' H2) in H1.
      rewrite (value_eqb_sym k' k), H1. lia.
Qed.

Lemma fold_count_of (proj : counters → counter) (k : value)
    (w : merged_goal → Z) (l : list merged_goal) (st : counters) :
  (∀ st g, count_of k (proj (count_goal st g)) = count_of k (proj st) + w g) →
  count_of k (proj (fold_left count_goal l st))
  = count_of k (proj st) + foldr (fun g acc => w g + acc) 0 l.
Proof.
  intros Hstep. revert st.
  induction l as [|g l IH]; intros st; cbn [fold_left foldr]; [lia|].
  rewrite IH, Hstep. lia.
Qed.

Lemma count_of_count_value (k v : value) (d : counter) :
  count_of k (count_value v d)
  = count_of k d + (if truthy v && value_eqb v k then 1 else 0).
Proof.
  unfold count_value. destruct (truthy v); cbn [andb]; [|lia].
  apply count_of_incr.
Qed.

(** X14: the count a key has in [byOpponent] is the number of
    regular-season records whose opponent is true and equal to the key (as
    Python compares); in [byAnyAssist] it is the number of such primary
    assists plus the number of such secondary assists; a key that no record
    carries has no count. *)
Theorem count_per_key (gs : list merged_goal) (k : value) :
  let s := rebuild_stats gs in
  let r := regular gs in
  count_of k (byOpponent s)
  = Z.of_nat (length (List.filter
       (fun g => truthy (opponent g) && value_eqb (opponent g) k) r))
  ∧ count_of k (byAnyAssist s)
    = Z.of_nat (length (List.filter
         (fun g => truthy (primaryAssist g)
                   && value_eqb (primaryAssist g) k) r))
      + Z.of_nat (length (List.filter
           (fun g => truthy (secondaryAssist g)
                     && value_eqb (secondaryAssist g) k) r)).
Proof.
  cbn zeta. unfold rebuild_stats. cbn [byOpponent byAnyAssist]. split.
  - rewrite (fold_count_of c_byOpponent k
               (fun g => if truthy (opponent g) && value_eqb (opponent g) k
                         then 1 else 0)).
    + by rewrite sum_indicator.
    + intros st g. cbn. apply count_of_count_value.
  - rewrite (fold_count_of c_byAnyAssist k
               (fun g =>
                  (if truthy (primaryAssist g)
                      && value_eqb (primaryAssist g) k then 1 else 0)
                  + (if truthy (secondaryAssist g)
                        && value_eqb (secondaryAssist g) k then 1 else 0))).
    + by rewrite sum_two_indicators.
    + intros st g. cbn. rewrite !count_of_count_value. lia.
Qed.

Lemma forallb_incr (f : value → bool) (k : value) (d : counter) :
  f k = true →
  forallb (fun kv => f kv.1) d = true →
  forallb (fun kv => f kv.1) (incr k d) = true.
Proof.
  intros Hk. induction d as [|[k1 n] d IH]; cbn [incr forallb fst].
  - intros _. by rewrite Hk.
  - intros [H1 Hd]%andb_true_iff.
    destruct (value_eqb k1 k); cbn [forallb fst]; rewrite H1; cbn [andb];
      [exact Hd|by apply IH].
Qed.

Lemma counter_ok_incr (k : value) (d : counter) :
  truthy k = true → counter_ok d → counter_ok (incr k d).
Proof.
  intros Hk [Hdist Hall]. split.
  - clear Hall. induction d as [|[k1 n] d IH]; [reflexivity|].
    cbn [distinct_keys incr] in *.
    apply andb_true_iff in Hdist as [H1 Hd].
    destruct (value_eqb k1 k) eqn:Hk1; cbn [distinct_keys].
    + by rewrite H1, Hd.
    + rewrite (IH Hd), andb_true_r.
      apply (forallb_incr (fun x => negb (value_eqb x k1))); [|exact H1].
      by rewrite value_eqb_sym, Hk1.
  - clear Hdist. induction Hall as [|[k1 n] d [Ht Hn] Hall IH]; cbn [incr].
    + repeat constructor; [exact Hk|done].
    + cbn in Ht, Hn. destruct (value_eqb k1 k); constructor; try done.
      cbn. split; [exact Ht|lia].
Qed.

Lemma counter_ok_count_value (v : value) (d : counter) :
  counter_ok d → counter_ok (count_value v d).
Proof.
  intros Hd. unfold count_value. destruct (truthy v) eqn:Hv; [|exact Hd].
  by apply counter_ok_incr.
Qed.

Lemma counter_ok_count_cell (c : option string) (d : counter) :
  counter_ok d → counter_ok (count_cell c d).
Proof.
  intros Hd. unfold count_cell. destruct (truthy_cell c) eqn:Hc; [|exact Hd].
  apply counter_ok_incr; [|exact Hd]. by destruct c.
Qed.

Lemma fold_counter_ok (proj : counters → counter) (l : list merged_goal)
    (st : counters) :
  (∀ st g, counter_ok (proj st) → counter_ok (proj (count_goal st g))) →
  counter_ok (proj st) → counter_ok (proj (fold_left count_goal l st)).
Proof.
  intros Hstep. revert st.
  induction l as [|g l IH]; intros st Hst; cbn [fold_left]; [exact Hst|].
  by apply IH, Hstep.
Qed.

(** X15: in each of the six counters no key comes twice (as Python compares
    keys), no key is empty, null, zero or false, and every count is at least
    1. *)
Theorem counters_well_formed (gs : list merged_goal) :
  let s := rebuild_stats gs in
  counter_ok (bySeason s) ∧ counter_ok (byOpponent s)
  ∧ counter_ok (byGoalType s) ∧ counter_ok (byGoalie s)
  ∧ counter_ok (byAnyAssist s) ∧ counter_ok (byShotType s).
Proof.
  assert (Hinit : counter_ok []) by (split; [reflexivity|constructor]).
  cbn zeta. unfold rebuild_stats.
  cbn [bySeason byOpponent byGoalType byGoalie byAnyAssist byShotType].
  repeat split.
  - apply (fold_counter_ok c_bySeason); [|exact Hinit].
    intros st g. apply counter_ok_count_value.
  - apply (fold_counter_ok c_bySeason); [|exact Hinit].
    intros st g. apply counter_ok_count_value.
  - apply (fold_counter_ok c_byOpponent); [|exact Hinit].
    intros st g. apply counter_ok_count_value.
  - apply (fold_counter_ok c_byOpponent); [|exact Hinit].
    intros st g. apply counter_ok_count_value.
  - apply (fold_counter_ok c_byGoalType); [|exact Hinit].
    intros st g. apply counter_ok_count_value.
  - apply (fold_counter_ok c_byGoalType); [|exact Hinit].
    intros st g. apply counter_ok_count_value.
  - apply (fold_counter_ok c_byGoalie); [|exact Hinit].
    intros st g. apply counter_ok_count_cell.
  - apply (fold_counter_ok c_byGoalie); [|exact Hinit].
    intros st g. apply counter_ok_count_cell.
  - apply (fold_counter_ok c_byAnyAssist); [|exact Hinit].
    intros st g H. by apply counter_ok_count_value, counter_ok_count_value.
  - apply (fold_counter_ok c_byAnyAssist); [|exact Hinit].
    intros st g H. by apply counter_ok_count_value, counter_ok_count_value.
  - apply (fold_counter_ok c_byShotType); [|exact Hinit].
    intros st g. apply counter_ok_count_cell.
  - apply (fold_counter_ok c_byShotType); [|exact Hinit].
    intros st g. apply counter_ok_count_cell.
Qed.

Lemma sorted_app_ge (l1 l2 : counter) :
  StronglySorted count_ge (l1 ++ l2) →
  ∀ x y, x ∈ l1 → y ∈ l2 → y.2 <= x.2.
Proof.
  induction l1 as [|a l1 IH]; cbn [app]; intros Hs x y Hx Hy.
  - by apply elem_of_nil in Hx.
  - apply StronglySorted_inv in Hs as [Hs Ha].
    apply elem_of_cons in Hx as [->|Hx]; [|by apply IH].
    rewrite Forall_forall in Ha. apply Ha. apply elem_of_app. by right.
Qed.

Lemma firstn_is_top (n : nat) (d : counter) :
  is_top n (firstn n (sorted_desc d)) d.
Proof.
  split; [apply top_length|]. exists (skipn n (sorted_desc d)). split.
  - rewrite firstn_skipn. apply sorted_desc_perm.
  - apply sorted_app_ge. rewrite firstn_skipn. apply sorted_desc_sorted.
Qed.

(** X16: each ranked list really is a top list of its counter: it holds
    20, 20 or 10 of its items (all of them when there are fewer), and no
    item left out has a larger count than an item of the list. *)
Theorem top_lists_are_top (gs : list merged_goal) :
  let s := rebuild_stats gs in
  is_top 20 (topAssisters s) (byAnyAssist s)
  ∧ is_top 20 (topGoalies s) (byGoalie s)
  ∧ is_top 10 (topOpponents s) (byOpponent s).
Proof. cbn zeta. repeat split; apply firstn_is_top. Qed.

Lemma filter_insert_desc (n : Z) (x : value * Z) (l : counter) :
  List.filter (count_is n) (insert_desc x l)
  = List.filter (count_is n) (x :: l).
Proof.
  induction l as [|y l IH]; cbn [insert_desc]; [reflexivity|].
  destruct (Z.ltb_spec x.2 y.2) as [Hlt|_]; [|reflexivity].
  cbn [List.filter] in *. rewrite IH. unfold count_is.
  destruct (Z.eqb_spec x.2 n), (Z.eqb_spec y.2 n); try reflexivity. lia.
Qed.

Lemma filter_sorted_desc (n : Z) (d : counter) :
  List.filter (count_is n) (sorted_desc d) = List.filter (count_is n) d.
Proof.
  induction d as [|x d IH]; [reflexivity|].
  cbn [sorted_desc foldr]. fold (sorted_desc d).
  rewrite filter_insert_desc. cbn [List.filter]. by rewrite IH.
Qed.

Lemma filter_firstn_prefix (n : Z) (k : nat) (l : counter) :
  List.filter (count_is n) (firstn k l) `prefix_of` List.filter (count_is n) l.
Proof.
  exists (List.filter (count_is n) (skipn k l)).
  by rewrite <- List.filter_app, firstn_skipn.
Qed.

(** X17: ties are broken by first appearance: in each ranked list the
    items of one count stand in the order in which their keys entered the
    counter, and they are the first of them. *)
Theorem ties_keep_order (gs : list merged_goal) (n : Z) :
  let s := rebuild_stats gs in
  List.filter (count_is n) (topAssisters s)
    `prefix_of` List.filter (count_is n) (byAnyAssist s)
  ∧ List.filter (count_is n) (topGoalies s)
      `prefix_of` List.filter (count_is n) (byGoalie s)
  ∧ List.filter (count_is n) (topOpponents s)
      `prefix_of` List.filter (count_is n) (byOpponent s).
Proof.
  cbn zeta. unfold rebuild_stats.
  cbn [topAssisters topGoalies topOpponents byAnyAssist byGoalie byOpponent].
  repeat split;
    (etransitivity; [apply filter_firstn_prefix|]);
    by rewrite filter_sorted_desc.
Qed.

End Merge.

(** ** The statements at sample inputs

    The float parser is [SimpleFloat.parse]; on the cells used below it
    accepts and rejects what Python's [float] does. *)

Local Abbreviation shot := (shot_detail SimpleFloat.t).
Local Abbreviation run :=
  (main SimpleFloat.t SimpleFloat.parse "data/hockey_reference_goals.json"
     "data/shots_all.csv" "data/ovechkin_goals_complete.json").
Local Abbreviation load :=
  (load_moneypuck_goals SimpleFloat.t SimpleFloat.parse "data/shots_all.csv").

(** C1 as it is worded fails: the one event of this document has the time
    "ab:15", the mapping is empty, and [merge_data] raises instead of
    returning one merged record. *)
Lemma merge_data_length_counterexample :
  let d := sample_document [sample_event "ab:15" "NJD" false] in
  hr_nonempty d = true
  ∧ merge_data SimpleFloat.t (Some d) ∅ "2026-01-01T00:00:00"
    = Py.Raise Py.ValueError
  ∧ ¬ ∃ out printed,
        merge_data SimpleFloat.t (Some d) ∅ "2026-01-01T00:00:00"
        = Py.Ok (Some out, printed)
        ∧ length (goals _ out) = length (goals_of d).
Proof.
  cbv zeta. split; [reflexivity|]. split; [vm_compute; reflexivity|].
  intros (out & printed & Hrun & _). vm_compute in Hrun. discriminate Hrun.
Qed.

Lemma merge_data_length_witness :
  let d := sample_document [sample_event "08:15" "NJD" false;
                            sample_event "19:59" "NYR" true] in
  let mp : gmap string shot :=
    (load (Some [ovi_row "20051005" "1" "8:15" "1.5" "-2.25"])).1 in
  hr_nonempty d = true
  ∧ forallb (fallback_ok _ mp) (goals_of d) = true
  ∧ ∃ out printed,
      merge_data _ (Some d) mp "2026-01-01T00:00:00"
      = Py.Ok (Some out, printed)
      ∧ length (goals _ out) = length (goals_of d).
Proof.
  cbv zeta. split; [reflexivity|]. split; [vm_compute; reflexivity|].
  apply (proj1 (merge_data_length _ _ _ _)); vm_compute; reflexivity.
Defined.


(** C3 as it is worded fails: the time "ab:15" has two parts and the first
    lookup misses, but no key is rebuilt and no second lookup made: the
    conversion of "ab" raises. *)
Lemma fallback_lookup_counterexample :
  let goal := sample_event "ab:15" "NJD" false in
  (∅ : gmap string shot) !! event_key goal = None
  ∧ get_default goal "time" (VStr "") = VStr "ab:15"
  ∧ Py.split ":" "ab:15" = ["ab"; "15"]
  ∧ find_shot SimpleFloat.t ∅ goal = Py.Raise Py.ValueError
  ∧ ¬ ∃ n, find_shot SimpleFloat.t ∅ goal
           = Py.Ok ((∅ : gmap string shot) !! alt_key goal n "15").
Proof.
  cbv zeta. do 4 (split; [vm_compute; reflexivity|]).
  intros [n Hfind]. vm_compute in Hfind. discriminate Hfind.
Qed.

Lemma fallback_lookup_witness :
  let goal := sample_event "08:15" "NJD" false in
  let mp : gmap string shot :=
    (load (Some [ovi_row "10/5/2005" "1" "8:15" "1.5" "-2.25"])).1 in
  let d := row_detail _ SimpleFloat.parse
             (ovi_row "10/5/2005" "1" "8:15" "1.5" "-2.25") in
  mp !! event_key goal = None
  ∧ Py.split ":" "08:15" = ["08"; "15"]
  ∧ Py.int "08" = Some 8
  ∧ alt_key goal 8 "15" = "2005-10-05_1_8:15"
  ∧ mp !! "2005-10-05_1_8:15" = Some d
  ∧ find_shot _ mp goal = Py.Ok (mp !! alt_key goal 8 "15")
  ∧ find_shot _ mp goal = Py.Ok (Some d).
Proof.
  cbv zeta. do 5 (split; [vm_compute; reflexivity|]). split.
  - apply (proj1 (fallback_lookup _ _ _) "08:15" "08" "15" 8);
      vm_compute; reflexivity.
  - apply (proj2 (fallback_lookup _ _ _) _ (loop_init _));
      vm_compute; reflexivity.
Defined.

(** C4 as it is worded fails: the x cell "1.5" of this filtered row is not
    empty and is a float literal, the y cell "abc" is not, and x is null. *)
Lemma row_coordinates_counterexample :
  let r := ovi_row "20051005" "1" "8:15" "1.5" "abc" in
  row_passes r = true
  ∧ row_x r = Some "1.5"
  ∧ SimpleFloat.parse "1.5" = Some (15, 1%nat)
  ∧ SimpleFloat.parse "abc" = None
  ∧ sd_xCoord _ (row_detail _ SimpleFloat.parse r) = None
  ∧ ¬ (sd_xCoord _ (row_detail _ SimpleFloat.parse r) = None
       ↔ truthy_cell (row_x r) = false
         ∨ SimpleFloat.parse (default "" (row_x r)) = None).
Proof.
  cbv zeta. repeat split; try (vm_compute; reflexivity).
  intros [Himp _]. destruct Himp as [H|H]; [vm_compute; reflexivity| |];
    vm_compute in H; discriminate H.
Qed.

Lemma row_coordinates_witness :
  let r := ovi_row "20051005" "1" "8:15" "1.5" "" in
  let r' := ovi_row "20051005" "1" "8:15" "" "abc" in
  ¬ (unparseable _ SimpleFloat.parse (row_x r)
     ∨ unparseable _ SimpleFloat.parse (row_y r))
  ∧ sd_xCoord _ (row_detail _ SimpleFloat.parse r) = Some (15, 1%nat)
  ∧ sd_yCoord _ (row_detail _ SimpleFloat.parse r) = None
  ∧ unparseable _ SimpleFloat.parse (row_y r')
  ∧ sd_xCoord _ (row_detail _ SimpleFloat.parse r') = None
  ∧ sd_yCoord _ (row_detail _ SimpleFloat.parse r') = None.
Proof.
  cbv zeta.
  assert (Hr : ¬ (unparseable _ SimpleFloat.parse
                    (row_x (ovi_row "20051005" "1" "8:15" "1.5" ""))
                  ∨ unparseable _ SimpleFloat.parse
                      (row_y (ovi_row "20051005" "1" "8:15" "1.5" "")))).
  { intros [[_ H]|[H _]]; vm_compute in H; discriminate H. }
  assert (Hr' : unparseable _ SimpleFloat.parse
                  (row_y (ovi_row "20051005" "1" "8:15" "" "abc"))).
  { split; vm_compute; reflexivity. }
  destruct (proj2 (row_coordinates _ SimpleFloat.parse _) Hr)
    as (_ & Hy0 & Hx & _).
  destruct (proj1 (row_coordinates _ SimpleFloat.parse _) (or_intror Hr'))
    as [Hx' Hy'].
  split; [exact Hr|].
  split; [rewrite Hx; vm_compute; reflexivity|].
  split; [apply Hy0; vm_compute; reflexivity|].
  split; [exact Hr'|]. split; assumption.
Defined.

Lemma byOpponent_total_witness :
  ∃ out printed,
    merge_data SimpleFloat.t (Some (sample_document sample_goals)) ∅
      "2026-01-01T00:00:00"
    = Py.Ok (Some out, printed)
    ∧ byOpponent (stats _ out) = [(VStr "NJD", 2)]
    ∧ total (byOpponent (stats _ out))
      = Z.of_nat (length (List.filter (counts_opponent _) (goals _ out))).
Proof.
  eexists _, _. split; [vm_compute; reflexivity|].
  split; [vm_compute; reflexivity|].
  eapply (proj2 (byOpponent_total SimpleFloat.t)
            (Some (sample_document sample_goals)) ∅ "2026-01-01T00:00:00").
  vm_compute; reflexivity.
Defined.

(** C7 as it is worded fails: the event at "ab:15" is matched by its first
    lookup when Input B has its row, and the run writes an output; without
    the file of Input B the second lookup is taken and the run raises. *)
Lemma missing_shots_file_counterexample :
  let d := sample_document [sample_event "ab:15" "NJD" false] in
  let rows := [ovi_row "20051005" "1" "ab:15" "1.5" "-2.25"] in
  Py.is_ok (run (Some d) (Some rows) "2026-01-01T00:00:00") = true
  ∧ run (Some d) None "2026-01-01T00:00:00" = Py.Raise Py.ValueError
  ∧ ¬ ∃ out printed,
        run (Some d) None "2026-01-01T00:00:00" = Py.Ok (Some out, printed).
Proof.
  cbv zeta. split; [vm_compute; reflexivity|].
  split; [vm_compute; reflexivity|].
  intros (out & printed & Hrun). vm_compute in Hrun. discriminate Hrun.
Qed.

Lemma missing_shots_file_witness :
  let d := sample_document [sample_event "08:15" "NJD" false;
                            sample_event "19:59" "NYR" true] in
  hr_nonempty d = true
  ∧ forallb time_ok (goals_of d) = true
  ∧ ∃ out printed,
      run (Some d) None "2026-01-01T00:00:00" = Py.Ok (Some out, printed)
      ∧ length (goals _ out) = length (goals_of d)
      ∧ Forall (shot_fields_null _) (goals _ out)
      ∧ goalsWithCoordinates (metadata _ out) = 0.
Proof.
  cbv zeta. split; [reflexivity|]. split; [vm_compute; reflexivity|].
  apply (proj1 (proj2 (missing_shots_file _ _ _ _ _ _ _)));
    vm_compute; reflexivity.
Defined.

Lemma last_row_wins_witness :
  let r0 := ovi_row "20051005" "1" "8:15" "1.5" "-2.25" in
  let r := ovi_row "10/5/2005" "1" "8:15" "-30" "4.5" in
  let r1 := ovi_row "20051007" "2" "3:33" "" "" in
  row_passes r0 = true
  ∧ row_key r0 = row_key r
  ∧ row_passes r = true
  ∧ (load (Some [r0; r; r1])).1 !! row_key r
    = Some (row_detail _ SimpleFloat.parse r)
  ∧ (load (Some [r0; r; r1])).2 = ["Loaded 2 Ovechkin goals from MoneyPuck"].
Proof.
  cbv zeta.
  split; [vm_compute; reflexivity|]. split; [vm_compute; reflexivity|].
  split; [vm_compute; reflexivity|].
  pose proof (last_row_wins _ SimpleFloat.parse "data/shots_all.csv"
                [ovi_row "20051005" "1" "8:15" "1.5" "-2.25"]
                [ovi_row "20051007" "2" "3:33" "" ""]
                (ovi_row "10/5/2005" "1" "8:15" "-30" "4.5")) as Hlast.
  cbv zeta in Hlast. destruct Hlast as [Hk Hp].
  - vm_compute; reflexivity.
  - intros r' ->%list_elem_of_singleton _. vm_compute. discriminate.
  - split; [exact Hk|]. etransitivity; [exact Hp|]. vm_compute; reflexivity.
Defined.

Lemma merge_counters_witness :
  let d := sample_document sample_goals in
  let mp : gmap string shot :=
    (load (Some [ovi_row "20051005" "1" "8:15" "1.5" "-2.25"])).1 in
  ∃ st,
    hr_nonempty d = true
    ∧ merge_loop _ mp (goals_of d) (loop_init _) = Py.Ok st
    ∧ matched _ st = 1 ∧ unmatched _ st = 3
    ∧ ∃ out,
        merge_data _ (Some d) mp "2026-01-01T00:00:00"
        = Py.Ok (Some out, merge_report _ st)
        ∧ goals _ out = merged_goals _ st
        ∧ matched _ st + unmatched _ st = Z.of_nat (length (goals _ out))
        ∧ goalsWithCoordinates (metadata _ out) = matched _ st.
Proof.
  cbv zeta. eexists. split; [reflexivity|].
  split; [vm_compute; reflexivity|].
  split; [reflexivity|]. split; [reflexivity|].
  apply (merge_counters _ (sample_document sample_goals)); vm_compute;
    reflexivity.
Defined.

Lemma bad_hour_raises_witness :
  let goal := sample_event "ab:15" "NJD" false in
  let d := sample_document [sample_event "08:15" "NJD" false; goal] in
  (∅ : gmap string shot) !! event_key goal = None
  ∧ get_default goal "time" (VStr "") = VStr "ab:15"
  ∧ Py.split ":" "ab:15" = ["ab"; "15"]
  ∧ Py.int "ab" = None
  ∧ merge_data SimpleFloat.t (Some d) ∅ "2026-01-01T00:00:00"
    = Py.Raise Py.ValueError
  ∧ ∃ e, run (Some d) None "2026-01-01T00:00:00" = Py.Raise e.
Proof.
  cbv zeta.
  assert (Hmiss : (∅ : gmap string shot)
                    !! event_key (sample_event "ab:15" "NJD" false) = None)
    by (vm_compute; reflexivity).
  assert (Ht : get_default (sample_event "ab:15" "NJD" false) "time" (VStr "")
               = VStr "ab:15") by (vm_compute; reflexivity).
  assert (Hsplit : Py.split ":" "ab:15" = ["ab"; "15"])
    by (vm_compute; reflexivity).
  assert (Hint : Py.int "ab" = None) by (vm_compute; reflexivity).
  destruct (bad_hour_raises SimpleFloat.t SimpleFloat.parse
              "data/hockey_reference_goals.json" "data/shots_all.csv"
              "data/ovechkin_goals_complete.json" _ _ _ _ _
              Hmiss Ht Hsplit Hint) as (_ & Hfirst & _ & Hrun).
  do 4 (split; [assumption|]). split.
  - apply (Hfirst _ _ [sample_event "08:15" "NJD" false] []);
      vm_compute; reflexivity.
  - apply (Hrun _ None); [reflexivity|]. cbn. repeat constructor.
Defined.

(** ** The further properties at sample inputs *)

Local Abbreviation row1 := (ovi_row "20051005" "1" "8:15" "1.5" "-2.25").
Local Abbreviation row2 := (ovi_row "10/5/2005" "1" "8:15" "-30" "4.5").
Local Abbreviation row3 := (ovi_row "20051007" "2" "3:33" "" "").
Local Abbreviation other_shooter :=
  (<["shooterPlayerId" := "8470000"]> (ovi_row "20051005" "3" "1:01" "7" "8")).
Local Abbreviation now0 := "2026-01-01T00:00:00".

Lemma loaded_entries_witness :
  let rows := [row1; other_shooter; row3] in
  (load (Some rows)).1 !! "2005-10-05_1_8:15"
  = Some (row_detail _ SimpleFloat.parse row1)
  ∧ (load (Some rows)).1 !! row_key other_shooter = None
  ∧ row3 ∈ rows ∧ row_passes row3 = true
  ∧ (∃ r, r ∈ rows ∧ row_passes r = true ∧ row_key r = "2005-10-05_1_8:15"
          ∧ row_detail _ SimpleFloat.parse r
            = row_detail _ SimpleFloat.parse row1)
  ∧ is_Some ((load (Some rows)).1 !! row_key row3).
Proof.
  cbv zeta.
  assert (Hin : row3 ∈ [row1; other_shooter; row3]) by (do 2 right; left).
  split; [vm_compute; reflexivity|]. split; [vm_compute; reflexivity|].
  split; [exact Hin|]. split; [vm_compute; reflexivity|]. split.
  - apply (proj1 (loaded_entries_come_from_rows _ SimpleFloat.parse
                    "data/shots_all.csv" [row1; other_shooter; row3])).
    vm_compute; reflexivity.
  - apply (proj2 (loaded_entries_come_from_rows _ SimpleFloat.parse
                    "data/shots_all.csv" [row1; other_shooter; row3]));
      [exact Hin|vm_compute; reflexivity].
Defined.

Lemma loaded_count_witness :
  List.filter row_passes [row1; other_shooter; row2; row3] = [row1; row2; row3]
  ∧ row_key row1 = row_key row2
  ∧ size (load (Some [row1; other_shooter; row2; row3])).1 = 2%nat
  ∧ (size (load (Some [row1; other_shooter; row2; row3])).1
     < length (List.filter row_passes [row1; other_shooter; row2; row3]))%nat
  ∧ NoDup (map row_key (List.filter row_passes [row1; other_shooter; row3]))
  ∧ size (load (Some [row1; other_shooter; row3])).1
    = length (List.filter row_passes [row1; other_shooter; row3]).
Proof.
  assert (Hnodup : NoDup (map row_key
                            (List.filter row_passes
                               [row1; other_shooter; row3]))).
  { apply (bool_decide_unpack _). vm_compute; reflexivity. }
  split; [vm_compute; reflexivity|]. split; [vm_compute; reflexivity|].
  split; [vm_compute; reflexivity|]. split; [|split; [exact Hnodup|]].
  - apply (proj2 (proj2 (loaded_count _ SimpleFloat.parse "data/shots_all.csv"
                           [row1; other_shooter; row2; row3]))
             [] row1 [] row2 [row3]); vm_compute; reflexivity.
  - apply (proj1 (proj2 (loaded_count _ SimpleFloat.parse "data/shots_all.csv"
                           [row1; other_shooter; row3]))).
    exact Hnodup.
Defined.

Lemma normalize_date_forms_witness :
  normalize_date ("2005" ++ "10" ++ "05") = "2005" ++ "-" ++ "10" ++ "-" ++ "05"
  ∧ normalize_date ("10" ++ "/" ++ "5" ++ "/" ++ "2005")
    = "2005" ++ "-" ++ Py.pad02 "10" ++ "-" ++ Py.pad02 "5"
  ∧ normalize_date "2005-10-05" = "2005-10-05"
  ∧ normalize_date ("10" ++ "/" ++ "2005") = "10" ++ "/" ++ "2005".
Proof.
  destruct normalize_date_forms as (Hcompact & Hslash & Hplain & Hone).
  split; [apply Hcompact; reflexivity|].
  split; [apply Hslash; [reflexivity..|vm_compute; discriminate]|].
  split; [apply Hplain; [vm_compute; discriminate|reflexivity]|].
  apply Hone; [reflexivity..|vm_compute; discriminate].
Defined.

Lemma merged_in_order_witness :
  let d := sample_document sample_goals in
  let mp : gmap string shot := (load (Some [row1])).1 in
  ∃ out printed,
    merge_data _ (Some d) mp now0 = Py.Ok (Some out, printed)
    ∧ goals _ out = map (fun g => merged_of _ g (shot_of _ mp g)) (goals_of d)
    ∧ time _ <$> goals _ out
      = [VStr "08:15"; VStr "19:59"; VStr "03:10"; VStr "12:00"].
Proof.
  cbv zeta. eexists _, _. split; [vm_compute; reflexivity|].
  split; [|vm_compute; reflexivity].
  eapply (proj1 (merged_in_order _ (sample_document sample_goals)
                   (load (Some [row1])).1 now0 _ _ _)).
  Unshelve. 2: vm_compute; reflexivity.
Defined.


Lemma goalsWithCoordinates_witness :
  let d := sample_document sample_goals in
  let mp : gmap string shot :=
    (load (Some [ovi_row "20051005" "1" "8:15" "1.5" "abc"])).1 in
  ∃ out printed,
    merge_data _ (Some d) mp now0 = Py.Ok (Some out, printed)
    ∧ goalsWithCoordinates (metadata _ out) = 1
    ∧ length (List.filter (has_x _) (goals _ out)) = 0%nat
    ∧ goalsWithCoordinates (metadata _ out)
      = Z.of_nat (length (List.filter (found _ mp) (goals_of d)))
    ∧ Z.of_nat (length (List.filter (has_x _) (goals _ out)))
      <= goalsWithCoordinates (metadata _ out).
Proof.
  cbv zeta. eexists _, _. split; [vm_compute; reflexivity|].
  split; [vm_compute; reflexivity|]. split; [vm_compute; reflexivity|].
  eapply (goalsWithCoordinates_counts_matches _
            (sample_document sample_goals)
            (load (Some [ovi_row "20051005" "1" "8:15" "1.5" "abc"])).1 now0).
  vm_compute; reflexivity.
Defined.

Lemma season_split_witness :
  ∃ out printed,
    merge_data SimpleFloat.t (Some (sample_document sample_goals)) ∅ now0
    = Py.Ok (Some out, printed)
    ∧ regularSeasonGoals (metadata _ out) = 3
    ∧ playoffGoals (metadata _ out) = 1
    ∧ regularSeasonGoals (metadata _ out) + playoffGoals (metadata _ out)
      = Z.of_nat (length (goals _ out)).
Proof.
  eexists _, _. split; [vm_compute; reflexivity|].
  split; [vm_compute; reflexivity|]. split; [vm_compute; reflexivity|].
  eapply (proj1 (season_split SimpleFloat.t
                   (Some (sample_document sample_goals)) ∅ now0 _ _ _)).
  Unshelve. 2: vm_compute; reflexivity.
Defined.


Lemma no_input_A_witness :
  run None (Some [row1; other_shooter]) now0
  = Py.Ok (None,
           ["=== Ovechkin Goals Data Merge ===" ++ nl;
            "Warning: data/hockey_reference_goals.json not found. "
            ++ "Run the scraper first.";
            "Loaded 1 Ovechkin goals from MoneyPuck";
            nl ++ "Cannot proceed without Hockey Reference data.";
            "Run: npm run collect:hr"])
  ∧ hr_nonempty {| hr_goals := None; hr_other_keys := ∅ |} = false
  ∧ ∃ printed,
      run (Some {| hr_goals := None; hr_other_keys := ∅ |}) None now0
      = Py.Ok (None, printed).
Proof.
  split; [|split; [vm_compute; reflexivity|]].
  - etransitivity; [apply no_input_A; exact I|]. vm_compute; reflexivity.
  - eexists. apply no_input_A. vm_compute; reflexivity.
Defined.

Lemma main_is_merge_data_witness :
  let d := sample_document sample_goals in
  hr_nonempty d = true
  ∧ (∀ out,
       (∃ printed, run (Some d) (Some [row1]) now0 = Py.Ok (Some out, printed))
       ↔ (∃ printed,
            merge_data _ (Some d) (load (Some [row1])).1 now0
            = Py.Ok (Some out, printed)))
  ∧ (∀ e,
       run (Some d) (Some [row1]) now0 = Py.Raise e
       ↔ merge_data _ (Some d) (load (Some [row1])).1 now0 = Py.Raise e).
Proof.
  cbv zeta. split; [reflexivity|].
  apply main_is_merge_data. reflexivity.
Defined.

Lemma stats_ignore_playoffs_witness :
  let g1 := merged_of SimpleFloat.t (sample_event "08:15" "NJD" false) None in
  let g := merged_of SimpleFloat.t (sample_event "19:59" "NYR" true) None in
  let g2 := merged_of SimpleFloat.t (sample_event "12:00" "NJD" false) None in
  truthy (isPlayoffs _ g) = true
  ∧ rebuild_stats _ [g1; g; g2] = rebuild_stats _ [g1; g2]
  ∧ byOpponent (rebuild_stats _ [g1; g; g2]) = [(VStr "NJD", 2)].
Proof.
  cbv zeta. split; [vm_compute; reflexivity|].
  split; [|vm_compute; reflexivity].
  apply (proj2 (stats_ignore_playoffs _ _)
           [merged_of _ (sample_event "08:15" "NJD" false) None]
           (merged_of _ (sample_event "19:59" "NYR" true) None)
           [merged_of _ (sample_event "12:00" "NJD" false) None]);
    vm_compute; reflexivity.
Defined.

Lemma event_gets_its_row_witness :
  let d := sample_document sample_goals in
  let e := sample_event "12:00" "NJD" false in
  let r := ovi_row "10/5/2005" "1" "12:00" "-30" "4.5" in
  row_passes r = true
  ∧ goals_of d !! 3%nat = Some e
  ∧ event_key e = row_key r
  ∧ ∃ out printed g,
      run (Some d) (Some [row1; r; row3]) now0 = Py.Ok (Some out, printed)
      ∧ goals _ out !! 3%nat = Some g
      ∧ xCoord _ g = Some (-30, 0%nat) ∧ yCoord _ g = Some (45, 1%nat).
Proof.
  cbv zeta. split; [vm_compute; reflexivity|].
  split; [vm_compute; reflexivity|]. split; [vm_compute; reflexivity|].
  destruct (run (Some (sample_document sample_goals))
              (Some [row1; ovi_row "10/5/2005" "1" "12:00" "-30" "4.5"; row3])
              now0) as [[[out|] printed]|err] eqn:Hrun;
    try (vm_compute in Hrun; discriminate Hrun).
  destruct (event_gets_its_row _ SimpleFloat.parse
              "data/hockey_reference_goals.json" "data/shots_all.csv"
              "data/ovechkin_goals_complete.json"
              (sample_document sample_goals) [row1] [row3]
              (ovi_row "10/5/2005" "1" "12:00" "-30" "4.5") now0 out printed
              3%nat (sample_event "12:00" "NJD" false))
    as (g & Hg & _ & Hx & Hy & _).
  - vm_compute; reflexivity.
  - intros r' ->%list_elem_of_singleton _. vm_compute. discriminate.
  - vm_compute; reflexivity.
  - vm_compute; reflexivity.
  - exact Hrun.
  - exists out, printed, g. split; [reflexivity|]. split; [exact Hg|].
    split; (etransitivity; [eassumption|vm_compute; reflexivity]).
Defined.
